(** * MICE: the GADGET-2 snapshot serialization layer of [utils.py]

    A shallow embedding of the binary layer of [utils.py]
    ([read_header], [write_dummy], [write_block], [write_snapshot]) and of
    the header check of [read_configuration_file], followed by the
    properties of the on-disk format.

    Conventions of the embedding:
    - a Python [int] is a [Z]; a Python [float] is a [spec_float] (the
      binary64 values, with one NaN: the sign and the payload of a NaN are
      not told apart, and its image is the quiet NaN with a clear sign); a
      [bytes] object is a [list byte];
    - a raised exception is the [Raise] outcome of [result]; the exception
      classes are the ones the interpreter raises at that point;
    - a file object is the list of bytes written to it so far; bytes written
      before an exception stay written;
    - [struct] is used in native mode (no byte-order prefix), so the byte
      order is the one of the host, [sys_byteorder];
    - the calls to [log.debug] are left out, and [open] and [f.write] are
      taken to succeed: disk and permission failures are not modelled. *)

From Stdlib Require Import ZArith String Ascii Bool Lia List.
From Stdlib Require Import Strings.Byte Floats.SpecFloat.
Import ListNotations.
Local Open Scope Z_scope.

(** ** Exceptions and outcomes *)

Inductive exn : Set :=
| IndexError      (* list index out of range *)
| KeyError        (* missing dict key *)
| ValueError      (* bad value, also tuple unpacking of the wrong length *)
| TypeError
| SyntaxError
| OSError
| RuntimeError    (* dictionary changed size during iteration *)
| UnboundLocalError
| StructError.    (* struct.error *)

Inductive result (A : Type) : Type :=
| Ok (a : A)
| Raise (e : exn).

Arguments Ok {A} a.
Arguments Raise {A} e.

Definition bind_result {A B : Type} (r : result A) (k : A -> result B) : result B :=
  match r with
  | Ok a => k a
  | Raise e => Raise e
  end.

Declare Scope py_scope.
Delimit Scope py_scope with py.
Notation "x <- c ;; k" := (bind_result c (fun x => k))
  (at level 61, c at next level, right associativity) : py_scope.

(** ** Bytes and machine integers *)

Definition byte_of_Z (z : Z) : byte :=
  match Byte.of_N (Z.to_N (Z.land z 255)) with
  | Some b => b
  | None => x00
  end.

Definition Z_of_byte (b : byte) : Z := Z.of_N (Byte.to_N b).

(** The [n] bytes of the two's complement image of [x], least significant
    first: byte [k] is [(x >> 8k) & 0xff]. *)
Fixpoint le_bytes (n : nat) (x : Z) : list byte :=
  match n with
  | O => []
  | S n' => byte_of_Z x :: le_bytes n' (Z.shiftr x 8)
  end.

Inductive byte_order : Set := LittleEndian | BigEndian.

(** ** Python values handed to [struct] *)

Inductive pyval : Type :=
| PyInt (z : Z)
| PyFloat (f : spec_float)
| PyBytes (bs : list byte).

(** The format characters the repository uses. *)
Inductive fmt_code : Set := Fmt_c | Fmt_i | Fmt_f | Fmt_d.

(** A format string: blanks between codes are skipped; any other character
    is outside the codes above. *)
Fixpoint parse_format (s : string) : result (list fmt_code) :=
  match s with
  | EmptyString => Ok []
  | String ch rest =>
      let tl := parse_format rest in
      if Ascii.eqb ch " "%char then tl
      else if Ascii.eqb ch "c"%char then bind_result tl (fun l => Ok (Fmt_c :: l))
      else if Ascii.eqb ch "i"%char then bind_result tl (fun l => Ok (Fmt_i :: l))
      else if Ascii.eqb ch "f"%char then bind_result tl (fun l => Ok (Fmt_f :: l))
      else if Ascii.eqb ch "d"%char then bind_result tl (fun l => Ok (Fmt_d :: l))
      else Raise StructError
  end.

(** Native size of an item, as on the usual hosts ([int] and [float] of 4
    bytes, [double] of 8); in native mode it is also its alignment. *)
Definition code_size (c : fmt_code) : nat :=
  match c with
  | Fmt_c => 1
  | Fmt_i => 4
  | Fmt_f => 4
  | Fmt_d => 8
  end.

(** ** IEEE-754 images of floats *)

Definition sign_bit (w : Z) (s : bool) : Z := if s then Z.shiftl 1 (w - 1) else 0.

(** Bit pattern of a float of [prec] significand bits (hidden bit counted)
    in a word of [w] bits; [f] is canonical for that format. *)
Definition ieee_bits (prec w : Z) (f : spec_float) : Z :=
  let mbits := prec - 1 in
  let ebits := w - prec in
  let emax_field := Z.ones ebits in
  let bias := Z.ones (ebits - 1) in
  match f with
  | S754_zero s => sign_bit w s
  | S754_infinity s => sign_bit w s + Z.shiftl emax_field mbits
  | S754_nan => Z.shiftl emax_field mbits + Z.shiftl 1 (mbits - 1)
  | S754_finite s m e =>
      if Z.pos m <? Z.shiftl 1 mbits
      then sign_bit w s + Z.pos m
      else sign_bit w s + Z.shiftl (e + bias + mbits) mbits
           + (Z.pos m - Z.shiftl 1 mbits)
  end.

Definition bits_of_binary64 : spec_float -> Z := ieee_bits 53 64.
Definition bits_of_binary32 : spec_float -> Z := ieee_bits 24 32.

(** [PyFloat_AsDouble]: a float is itself, an int is rounded to the nearest
    double and fails when it is too large, anything else fails. *)
Definition as_double (v : pyval) : result spec_float :=
  match v with
  | PyFloat f => Ok f
  | PyInt z =>
      match binary_normalize 53 1024 z 0 false with
      | S754_infinity _ => Raise StructError
      | d => Ok d
      end
  | PyBytes _ => Raise StructError
  end.

(** The C cast [(float)x]: round to nearest even, no range check. *)
Definition to_binary32 (f : spec_float) : spec_float :=
  match f with
  | S754_finite s m e => binary_round 24 128 s m e
  | _ => f
  end.

(** The range of a C [int]. *)
Definition in_int32 (z : Z) : bool := (-2147483648 <=? z) && (z <=? 2147483647).

(** ** [struct.pack] in native mode *)

Section Host.

Variable sys_byteorder : byte_order.

Definition native_bytes (n : nat) (x : Z) : list byte :=
  match sys_byteorder with
  | LittleEndian => le_bytes n x
  | BigEndian => rev (le_bytes n x)
  end.

(** One item, as the packers [np_char], [np_int], [np_float], [np_double]. *)
Definition pack_item (c : fmt_code) (v : pyval) : result (list byte) :=
  match c with
  | Fmt_c =>
      match v with
      | PyBytes [b] => Ok [b]
      | _ => Raise StructError
      end
  | Fmt_i =>
      match v with
      | PyInt z =>
          if in_int32 z
          then Ok (native_bytes 4 z)
          else Raise StructError
      | _ => Raise StructError
      end
  | Fmt_f =>
      bind_result (as_double v)
        (fun d => Ok (native_bytes 4 (bits_of_binary32 (to_binary32 d))))
  | Fmt_d =>
      bind_result (as_double v)
        (fun d => Ok (native_bytes 8 (bits_of_binary64 d)))
  end.

(** Zero bytes that bring offset [off] to a multiple of the item size. *)
Definition align_pad (off : nat) (c : fmt_code) : list byte :=
  repeat x00 ((code_size c - off mod code_size c) mod code_size c).

(** Items are packed left to right into a zeroed buffer, each at its
    aligned offset; [off] is the number of bytes already laid out. *)
Fixpoint pack_items (off : nat) (codes : list fmt_code) (vals : list pyval)
  : result (list byte) :=
  match codes, vals with
  | [], [] => Ok []
  | c :: codes', v :: vals' =>
      let pad := align_pad off c in
      (item <- pack_item c v ;;
       rest <- pack_items (off + length pad + code_size c) codes' vals' ;;
       Ok (pad ++ item ++ rest))%py
  | _, _ => Raise StructError
  end.

(** [struct.pack] and [Struct.pack] applied to the unpacked values: the
    number of values is checked against the format before any is packed. *)
Definition struct_pack (fmt : list fmt_code) (vals : list pyval) : result (list byte) :=
  if Nat.eqb (length fmt) (length vals)
  then pack_items 0 fmt vals
  else Raise StructError.

(** ** [read_header] *)

Definition header_format : string :=
  "iiiiii dddddd d d i i iiiiii i i dddd ii cccc    cccccccccccccccccccccccccccccccccccccccccccccccccccccccccccccccc    cccccccccccccccccccc"%string.

Definition float_zero : spec_float := S754_zero false.            (* 0.0 *)
Definition float_one : spec_float := S754_finite false 4503599627370496 (-52).  (* 1.0 *)

(** The list [h_data], in the order of the appends. *)
Definition h_data (n_part : list Z) : list pyval :=
  map PyInt n_part                      (* n_part *)
  ++ repeat (PyFloat float_zero) 6      (* mass table *)
  ++ [PyFloat float_zero]               (* time *)
  ++ [PyFloat float_zero]               (* redshift *)
  ++ [PyInt 0]                          (* flag_sfr *)
  ++ [PyInt 0]                          (* flag_feedback *)
  ++ map PyInt n_part                   (* n_part_total *)
  ++ [PyInt 0]                          (* flag_cooling *)
  ++ [PyInt 1]                          (* num_files *)
  ++ [PyFloat float_zero]               (* box_size *)
  ++ [PyFloat float_zero]               (* omega0 *)
  ++ [PyFloat float_zero]               (* omega_lambda *)
  ++ [PyFloat float_one]                (* hubble_param *)
  ++ [PyInt 0]                          (* flag_age *)
  ++ [PyInt 0]                          (* flag_metals *)
  ++ repeat (PyBytes [x00]) 88.

Definition read_header (n_part : list Z) : result (list byte) :=
  (s <- parse_format header_format ;;
   struct_pack s (h_data n_part))%py.

(** ** The file being written

    A computation over an open binary file: it takes the bytes written so
    far and gives an outcome together with the bytes written when it stops.
    [f.write] appends; a raised exception leaves what was written. *)

Definition writer (A : Type) : Type := list byte -> result A * list byte.

Definition ret_w {A : Type} (a : A) : writer A := fun f => (Ok a, f).

Definition raise_w {A : Type} (e : exn) : writer A := fun f => (Raise e, f).

Definition bind_w {A B : Type} (m : writer A) (k : A -> writer B) : writer B :=
  fun f =>
    match m f with
    | (Ok a, f') => k a f'
    | (Raise e, f') => (Raise e, f')
    end.

Definition lift_w {A : Type} (r : result A) : writer A := fun f => (r, f).

Definition f_write (d : list byte) : writer unit := fun f => (Ok tt, f ++ d).

Declare Scope writer_scope.
Delimit Scope writer_scope with writer.
Notation "x <- c ;; k" := (bind_w c (fun x => k))
  (at level 61, c at next level, right associativity) : writer_scope.
Notation "c ;; k" := (bind_w c (fun _ => k))
  (at level 61, right associativity) : writer_scope.

(** ** [write_dummy] *)

Fixpoint write_dummy (values_list : list Z) : writer unit :=
  match values_list with
  | [] => ret_w tt
  | i :: rest =>
      (d <- lift_w (struct_pack [Fmt_i] [PyInt i]) ;;
       f_write d ;;
       write_dummy rest)%writer
  end.

(** ** [write_block] *)

(** What is passed as [block_data]: the packed header, a flat sequence of
    numbers, or the value [False] that [write_snapshot] binds to [Z] when
    the data list has no eighth entry. *)
Inductive block_data : Type :=
| DataBytes (bs : list byte)
| DataArray (xs : list pyval)
| DataFalse.

Definition len (d : block_data) : result nat :=
  match d with
  | DataBytes bs => Ok (length bs)
  | DataArray xs => Ok (length xs)
  | DataFalse => Raise TypeError
  end.

(** The items of [block_data] when it is unpacked into arguments; iterating
    a [bytes] object gives its bytes as integers. *)
Definition unpack_args (d : block_data) : result (list pyval) :=
  match d with
  | DataBytes bs => Ok (map (fun b => PyInt (Z_of_byte b)) bs)
  | DataArray xs => Ok xs
  | DataFalse => Raise TypeError
  end.

(** [bytes(ch, 'utf-8')] for a character below U+0100. *)
Definition utf8_encode (ch : ascii) : list byte :=
  let n := Z.of_N (N_of_ascii ch) in
  if n <? 128 then [byte_of_Z n]
  else [byte_of_Z (192 + Z.shiftr n 6); byte_of_Z (128 + Z.land n 63)].

(** Reading a local variable that is bound only on some paths. *)
Definition local {A : Type} (v : option A) : writer A :=
  match v with
  | Some x => ret_w x
  | None => raise_w UnboundLocalError
  end.

Definition write_block (data : block_data) (data_type : option fmt_code)
  (block_name : string) : writer unit :=
  (write_dummy [8] ;;
   let block_name_binary :=
     map (fun ch => PyBytes (utf8_encode ch)) (list_ascii_of_string block_name) in
   name <- lift_w (struct_pack (repeat Fmt_c 4) block_name_binary) ;;
   f_write name ;;
   fmt_nbytes <-
     (if String.eqb block_name "HEAD"
      then ret_w (None, 256)
      else (n <- lift_w (len data) ;;
            match data_type with
            | Some c => ret_w (Some (repeat c n), Z.of_nat n * 4)
            | None => raise_w TypeError
            end)) ;;
   let nbytes := snd fmt_nbytes in
   write_dummy [nbytes + 8; 8; nbytes] ;;
   (if String.eqb block_name "HEAD"
    then match data with
         | DataBytes bs => f_write bs
         | _ => raise_w TypeError
         end
    else (fmt <- local (fst fmt_nbytes) ;;
          args <- lift_w (unpack_args data) ;;
          payload <- lift_w (struct_pack fmt args) ;;
          f_write payload)) ;;
   write_dummy [nbytes])%writer.

(** ** [write_snapshot] *)

(** [l[i]] for a non-negative constant [i]. *)
Definition py_index {A : Type} (l : list A) (i : nat) : result A :=
  match nth_error l i with
  | Some x => Ok x
  | None => Raise IndexError
  end.

(** The outcome of the call and the content of [outfile]: [None] when the
    file was never opened, otherwise the bytes it holds when the call ends
    ([open] in mode ['wb'] starts from an empty file). *)
Definition write_snapshot (n_part : list Z) (data_list : list block_data)
  (file_format : string) : result unit * option (list byte) :=
  let setup :=
    (N_gas <- py_index n_part 0 ;;
     pos_data <- py_index data_list 0 ;;
     vel_data <- py_index data_list 1 ;;
     ID_data <- py_index data_list 2 ;;
     mass_data <- py_index data_list 3 ;;
     gas <- (if 0 <? N_gas
             then (U_data <- py_index data_list 4 ;;
                   rho_data <- py_index data_list 5 ;;
                   smoothing_data <- py_index data_list 6 ;;
                   Ok (Some U_data, Some rho_data, Some smoothing_data))
             else Ok (None, None, None)) ;;
     Z_data <- (if (7 <? length data_list)%nat
                then py_index data_list 7
                else Ok DataFalse) ;;
     if String.eqb file_format "gadget2"
     then
       (header_data <- read_header n_part ;;
        Ok (write_block (DataBytes header_data) None "HEAD" ;;
            write_block pos_data (Some Fmt_f) "POS " ;;
            write_block vel_data (Some Fmt_f) "VEL " ;;
            write_block ID_data (Some Fmt_i) "ID  " ;;
            write_block mass_data (Some Fmt_f) "MASS" ;;
            if 0 <? N_gas
            then (U_data <- local (fst (fst gas)) ;;
                  write_block U_data (Some Fmt_f) "U   " ;;
                  (if (7 <? length data_list)%nat
                   then write_block Z_data (Some Fmt_f) "Z   "
                   else ret_w tt) ;;
                  rho_data <- local (snd (fst gas)) ;;
                  write_block rho_data (Some Fmt_f) "RHO " ;;
                  smoothing_data <- local (snd gas) ;;
                  write_block smoothing_data (Some Fmt_f) "HSML")
            else ret_w tt)%writer)
     else Raise ValueError)%py in
  match setup with
  | Ok body => let (r, f) := body [] in (r, Some f)
  | Raise e => (Raise e, None)
  end.

End Host.

(** ** [read_configuration_file] *)

(** Values of a TOML document. *)
#[local] Unset Elimination Schemes.
Inductive toml_value : Type :=
| TInt (z : Z)
| TFloat (f : spec_float)
| TBool (b : bool)
| TStr (s : string)
| TArray (l : list toml_value).
#[local] Set Elimination Schemes.

(** A table is a dict: keys in insertion order, each at most once. A
    document is taken at the level of its sections, the top-level tables:
    a file whose top level binds HEADER to a value that is not a table
    is outside the documents described here. *)
Definition table : Type := list (string * toml_value).
Definition document : Type := list (string * table).

(** What [toml.load(filepath)] comes to. *)
Inductive load_outcome : Type :=
| FileNotFound
| TomlDecodeError
| Loaded (configuration_data : document).

Inductive pytype : Set := Ty_list | Ty_float | Ty_int.

Definition header_typing : list (string * pytype) :=
  [ ("mass_array", Ty_list);
    ("time", Ty_float);
    ("redshift", Ty_float);
    ("flag_sfr", Ty_int);
    ("flag_cooling", Ty_int);
    ("flag_feedback", Ty_int);
    ("num_files", Ty_int);
    ("boxsize", Ty_float);
    ("omega0", Ty_float);
    ("omega_lambda", Ty_float);
    ("hubble_param", Ty_float);
    ("flag_age", Ty_int);
    ("flag_metals", Ty_int) ]%string.

Section Dict.

Context {V : Type}.

Fixpoint dict_find (d : list (string * V)) (k : string) : option V :=
  match d with
  | [] => None
  | (k', v) :: rest => if String.eqb k' k then Some v else dict_find rest k
  end.

(** [k in d] *)
Definition dict_mem (d : list (string * V)) (k : string) : bool :=
  match dict_find d k with
  | Some _ => true
  | None => false
  end.

(** [d[k]] *)
Definition dict_get (d : list (string * V)) (k : string) : result V :=
  match dict_find d k with
  | Some v => Ok v
  | None => Raise KeyError
  end.

(** [d[k] = v] for a key that is present: the entry keeps its place. *)
Fixpoint dict_update (d : list (string * V)) (k : string) (v : V) : list (string * V) :=
  match d with
  | [] => []
  | (k', v') :: rest =>
      if String.eqb k' k then (k', v) :: rest else (k', v') :: dict_update rest k v
  end.

End Dict.

(** The value of a decimal digit character. *)
Definition digit_value (ch : ascii) : option Z :=
  let n := Z.of_N (N_of_ascii ch) in
  if (48 <=? n) && (n <=? 57) then Some (n - 48) else None.

(** [header_typing[key](value)] where [value] is a string of one character:
    [list] gives its characters, [float] and [int] parse a number. *)
Definition coerce (ty : pytype) (value : ascii) : result toml_value :=
  match ty with
  | Ty_list => Ok (TArray [TStr (String value EmptyString)])
  | Ty_float =>
      match digit_value value with
      | Some d => Ok (TFloat (binary_normalize 53 1024 d 0 false))
      | None => Raise ValueError
      end
  | Ty_int =>
      match digit_value value with
      | Some d => Ok (TInt d)
      | None => Raise ValueError
      end
  end.

(** The loop [for key, value in header: header[key] = header_typing[key](value)].
    Iterating a dict gives its keys, so each step unpacks one key, a string,
    into [key, value]: this needs a string of exactly two characters.
    [keys] are the keys still to visit. Assigning to a key that is not in
    the dict changes its size, and the iterator raises at its next step. *)
Fixpoint coerce_loop (keys : list string) (header : table) : result table :=
  match keys with
  | [] => Ok header
  | k :: rest =>
      match list_ascii_of_string k with
      | [key; value] =>
          let key := String key EmptyString in
          (ty <- dict_get header_typing key ;;
           v <- coerce ty value ;;
           if dict_mem header key
           then coerce_loop rest (dict_update header key v)
           else Raise RuntimeError)%py
      | _ => Raise ValueError
      end
  end.

(** The result is the state at the end of the function: the header after
    the loop and the list [components]. *)
Definition read_configuration_file (loaded : load_outcome)
  : result (table * list string) :=
  match loaded with
  | FileNotFound => Raise OSError
  | TomlDecodeError => Raise SyntaxError
  | Loaded configuration_data =>
      if negb (dict_mem configuration_data "HEADER")
      then Raise SyntaxError
      else
        (header <- dict_get configuration_data "HEADER" ;;
         let missing_headers :=
           filter (fun i => negb (dict_mem header i)) (map fst header_typing) in
         if negb (Nat.eqb (length missing_headers) 0)
         then Raise SyntaxError
         else
           (header' <- coerce_loop (map fst header) header ;;
            let components :=
              filter (fun i => negb (String.eqb i "HEADER")) (map fst configuration_data) in
            Ok (header', components)))%py
  end.

(** ** Reading the format back

    The definitions below are not part of [utils.py]: they are the reader's
    side of the format, used to state what the writers put on disk. *)

(** Value of a byte string read least significant byte first. *)
Fixpoint le_value (bs : list byte) : Z :=
  match bs with
  | [] => 0
  | b :: rest => Z_of_byte b + 256 * le_value rest
  end.

(** Value of a byte string read most significant byte first. *)
Definition be_value (bs : list byte) : Z :=
  fold_left (fun acc b => 256 * acc + Z_of_byte b) bs 0.

Definition native_value (order : byte_order) (bs : list byte) : Z :=
  match order with
  | LittleEndian => le_value bs
  | BigEndian => be_value bs
  end.

(** Two's complement reading of a 32-bit pattern. *)
Definition signed32 (u : Z) : Z := if u <? 2147483648 then u else u - 4294967296.

(** [bs] is a 4-byte integer holding [v]. *)
Definition holds_int32 (order : byte_order) (bs : list byte) (v : Z) : Prop :=
  length bs = 4%nat /\ signed32 (native_value order bs) = v.

(** The float a binary64 pattern stands for. *)
Definition binary64_of_bits (x : Z) : spec_float :=
  let s := Z.testbit x 63 in
  let e := Z.land (Z.shiftr x 52) 2047 in
  let m := Z.land x 4503599627370495 in
  if e =? 0 then
    match m with
    | Z.pos p => S754_finite s p (-1074)
    | _ => S754_zero s
    end
  else if e =? 2047 then
    (if m =? 0 then S754_infinity s else S754_nan)
  else
    match m + 4503599627370496 with
    | Z.pos p => S754_finite s p (e - 1075)
    | _ => S754_nan
    end.

Definition slice (off n : nat) (bs : list byte) : list byte :=
  firstn n (skipn off bs).

(** The 32-bit integer and the double stored at byte offset [off]. *)
Definition int_at (order : byte_order) (bs : list byte) (off : nat) : Z :=
  signed32 (native_value order (slice off 4 bs)).

Definition double_at (order : byte_order) (bs : list byte) (off : nat) : spec_float :=
  binary64_of_bits (native_value order (slice off 8 bs)).

(** The bit pattern a numeric item stands for: an integer itself, read in
    two's complement, and the IEEE-754 image of a float. *)
Definition field_bits (c : fmt_code) (v : pyval) : result Z :=
  match c with
  | Fmt_c => Raise StructError
  | Fmt_i =>
      match v with
      | PyInt z => Ok z
      | _ => Raise StructError
      end
  | Fmt_f => bind_result (as_double v) (fun d => Ok (bits_of_binary32 (to_binary32 d)))
  | Fmt_d => bind_result (as_double v) (fun d => Ok (bits_of_binary64 d))
  end.

(** The bytes a block name is stored as. *)
Definition name_bytes (block_name : string) : list byte :=
  map byte_of_ascii (list_ascii_of_string block_name).

Definition name_of_bytes (bs : list byte) : string :=
  string_of_list_ascii (map ascii_of_byte bs).

(** [appended] is one block in the unformatted-record framing: the marker
    8, the name, the markers [nbytes + 8], 8 and [nbytes], the payload and
    the closing marker [nbytes]. *)
Definition framed (order : byte_order) (name : list byte) (nbytes : Z)
  (payload appended : list byte) : Prop :=
  exists m1 m2 m3 m4 m5 : list byte,
    appended = m1 ++ name ++ m2 ++ m3 ++ m4 ++ payload ++ m5 /\
    holds_int32 order m1 8 /\
    length name = 4%nat /\
    holds_int32 order m2 (nbytes + 8) /\
    holds_int32 order m3 8 /\
    holds_int32 order m4 nbytes /\
    holds_int32 order m5 nbytes.

(** A reader that walks a file block by block: it takes the name of each
    block and skips the payload by the size markers alone. It gives [None]
    on a file that is not a sequence of whole blocks. [fuel] bounds the
    number of blocks. *)
Fixpoint read_block_names (order : byte_order) (fuel : nat) (bs : list byte)
  : option (list string) :=
  match bs with
  | [] => Some []
  | _ :: _ =>
      match fuel with
      | O => None
      | S fuel' =>
          let m1 := slice 0 4 bs in
          let name := slice 4 4 bs in
          let m2 := slice 8 4 bs in
          let m3 := slice 12 4 bs in
          let m4 := slice 16 4 bs in
          let nbytes := signed32 (native_value order m4) in
          let n := Z.to_nat nbytes in
          let after_payload := skipn n (skipn 20 bs) in
          let m5 := firstn 4 after_payload in
          if (24 + n <=? length bs)%nat
             && (signed32 (native_value order m1) =? 8)
             && (signed32 (native_value order m2) =? nbytes + 8)
             && (signed32 (native_value order m3) =? 8)
             && (0 <=? nbytes)
             && (signed32 (native_value order m5) =? nbytes)
          then option_map (cons (name_of_bytes name))
                 (read_block_names order fuel' (skipn 4 after_payload))
          else None
      end
  end.

(** Every block takes at least one byte, so the length of the file is
    fuel enough. *)
Definition block_names (order : byte_order) (bs : list byte) : option (list string) :=
  read_block_names order (length bs) bs.

(** The names of the blocks in [outfile] after a call of [write_snapshot]:
    none when the file was never opened. *)
Definition emitted_block_names (order : byte_order)
  (outcome : result unit * option (list byte)) : option (list string) :=
  match snd outcome with
  | None => Some []
  | Some bs => block_names order bs
  end.

(** The sequence of block names of the format for a gas count [N_gas], with
    or without a metallicity array. *)
Definition expected_block_names (N_gas : Z) (metallicity : bool) : list string :=
  ["HEAD"; "POS "; "VEL "; "ID  "; "MASS"]%string
  ++ (if 0 <? N_gas
      then ["U   "]%string
           ++ (if metallicity then ["Z   "]%string else [])
           ++ ["RHO "; "HSML"]%string
      else []).

(** The layout of the header of section 4.1 of the format description, for
    given counts: the fields in order, each in the byte order of the host. *)
Definition header_layout (order : byte_order) (n_part : list Z) : list byte :=
  let int32 z := native_bytes order 4 z in
  let double f := native_bytes order 8 (bits_of_binary64 f) in
  flat_map int32 n_part
  ++ flat_map double (repeat float_zero 6)
  ++ double float_zero ++ double float_zero
  ++ int32 0 ++ int32 0
  ++ flat_map int32 n_part
  ++ int32 0 ++ int32 1
  ++ double float_zero ++ double float_zero ++ double float_zero
  ++ double float_one
  ++ int32 0 ++ int32 0
  ++ repeat x00 88.

(** The size a block declares for its payload, and the payload it writes,
    as [write_block] computes them. *)
Definition block_nbytes (data : block_data) (data_type : option fmt_code)
  (block_name : string) : result Z :=
  if String.eqb block_name "HEAD"
  then Ok 256
  else (n <- len data ;;
        match data_type with
        | Some _ => Ok (Z.of_nat n * 4)
        | None => Raise TypeError
        end)%py.

Definition block_payload (order : byte_order) (data : block_data)
  (data_type : option fmt_code) (block_name : string) : result (list byte) :=
  if String.eqb block_name "HEAD"
  then match data with
       | DataBytes bs => Ok bs
       | _ => Raise TypeError
       end
  else (n <- len data ;;
        c <- match data_type with
             | Some c => Ok c
             | None => Raise TypeError
             end ;;
        args <- unpack_args data ;;
        struct_pack order (repeat c n) args)%py.

(** The items of a sequence packed one after the other with one code. *)
Fixpoint pack_each (order : byte_order) (c : fmt_code) (vals : list pyval)
  : result (list byte) :=
  match vals with
  | [] => Ok []
  | v :: rest =>
      (item <- pack_item order c v ;;
       tl <- pack_each order c rest ;;
       Ok (item ++ tl))%py
  end.

(** The offset reached once [codes] are laid out from offset [off]. *)
Fixpoint end_offset (off : nat) (codes : list fmt_code) : nat :=
  match codes with
  | [] => off
  | c :: cs => end_offset (off + length (align_pad off c) + code_size c) cs
  end.

(** The codes of [header_format], grouped as the values of [h_data] are. *)
Definition header_codes : list fmt_code :=
  repeat Fmt_i 6
  ++ (repeat Fmt_d 8 ++ repeat Fmt_i 2)
  ++ repeat Fmt_i 6
  ++ (repeat Fmt_i 2 ++ repeat Fmt_d 4 ++ repeat Fmt_i 2 ++ repeat Fmt_c 88).

(** Where the byte of significance [k] of an item of [size] bytes lies:
    least significant byte first on a little-endian host, last on a
    big-endian one. *)
Definition byte_position (order : byte_order) (size k : nat) : nat :=
  match order with
  | LittleEndian => k
  | BigEndian => size - 1 - k
  end.

(** [appended] is a whole block named [name]: framed, and with as many
    payload bytes as its size markers say. *)
Definition good_block (order : byte_order) (name : string) (appended : list byte) : Prop :=
  exists (nbytes : Z) (payload : list byte),
    framed order (name_bytes name) nbytes payload appended /\
    Z.of_nat (length payload) = nbytes.

(** A file that is a sequence of whole blocks, with their names. *)
Inductive block_seq (order : byte_order) : list byte -> list string -> Prop :=
| block_seq_nil : block_seq order [] []
| block_seq_cons (name : string) (appended rest : list byte) (names : list string) :
    good_block order name appended ->
    block_seq order rest names ->
    block_seq order (appended ++ rest) (name :: names).

(** A HEADER section with every required key, as a scenario file gives it. *)
Definition sample_header : table :=
  [ ("mass_array", TArray [TInt 0; TInt 0; TInt 0; TInt 0; TInt 0; TInt 0]);
    ("time", TFloat float_zero);
    ("redshift", TFloat float_zero);
    ("flag_sfr", TInt 0);
    ("flag_cooling", TInt 0);
    ("flag_feedback", TInt 0);
    ("num_files", TInt 1);
    ("boxsize", TFloat float_zero);
    ("omega0", TFloat float_zero);
    ("omega_lambda", TFloat float_zero);
    ("hubble_param", TFloat float_one);
    ("flag_age", TInt 0);
    ("flag_metals", TInt 0) ]%string.

(** Sample arrays for worked examples: three floats (one of them given as
    an int), two identifiers, one value per gas particle; and the blocks
    they are written as. *)
Definition sample_floats : block_data :=
  DataArray [PyFloat float_one; PyFloat float_zero; PyInt 3].
Definition sample_ids : block_data := DataArray [PyInt 1; PyInt 2].
Definition sample_gas : block_data := DataArray [PyFloat float_one].

Definition sample_data_list : list block_data :=
  [sample_floats; sample_floats; sample_ids; sample_floats;
   sample_gas; sample_gas; sample_gas; sample_gas].

Definition sample_id_block : list byte :=
  [x08; x00; x00; x00;  x49; x44; x20; x20;  x10; x00; x00; x00;
   x08; x00; x00; x00;  x08; x00; x00; x00;
   x01; x00; x00; x00;  x02; x00; x00; x00;  x08; x00; x00; x00].

Definition sample_gas_block_big_endian : list byte :=
  [x00; x00; x00; x08;  x4d; x41; x53; x53;  x00; x00; x00; x0c;
   x00; x00; x00; x08;  x00; x00; x00; x04;
   x3f; x80; x00; x00;  x00; x00; x00; x04].

(** A block name of four characters below U+0080. *)
Definition ascii_name (block_name : string) : Prop :=
  length (list_ascii_of_string block_name) = 4%nat /\
  Forall (fun ch => (N_of_ascii ch < 128)%N) (list_ascii_of_string block_name).

(** [data] can be written as a block of items of code [c]: it has a
    length, its items pack, and its size with the two 4-byte markers fits
    a C [int]. *)
Definition writable (order : byte_order) (data : block_data) (c : fmt_code) : Prop :=
  exists (n : nat) (args : list pyval) (payload : list byte),
    len data = Ok n /\ unpack_args data = Ok args /\
    struct_pack order (repeat c n) args = Ok payload /\
    in_int32 (Z.of_nat n * 4 + 8) = true.

(** A data list that holds, each writable, the four arrays every snapshot
    has and, for a positive gas count, the three gas arrays and, when
    present, the metallicity array. *)
Definition well_formed_data (order : byte_order) (N_gas : Z)
  (data_list : list block_data) : Prop :=
  exists (pos vel ids mass : block_data) (gas : list block_data),
    data_list = pos :: vel :: ids :: mass :: gas /\
    writable order pos Fmt_f /\ writable order vel Fmt_f /\
    writable order ids Fmt_i /\ writable order mass Fmt_f /\
    (0 < N_gas ->
     exists (U rho sm : block_data) (more : list block_data),
       gas = U :: rho :: sm :: more /\
       writable order U Fmt_f /\ writable order rho Fmt_f /\ writable order sm Fmt_f /\
       (forall zd more', more = zd :: more' -> writable order zd Fmt_f)).

(** ** Further notions used by the properties *)

(** The HEAD block of a snapshot whose header is [hdr]. *)
Definition head_block (order : byte_order) (hdr : list byte) : list byte :=
  native_bytes order 4 8 ++ name_bytes "HEAD"
  ++ native_bytes order 4 264 ++ native_bytes order 4 8
  ++ native_bytes order 4 256 ++ hdr ++ native_bytes order 4 256.

(** The first 20 bytes of a block of [n] elements: the marker 8, the name
    and the three markers that precede the payload. *)
Definition block_head (order : byte_order) (block_name : string) (n : nat) : list byte :=
  native_bytes order 4 8 ++ name_bytes block_name
  ++ native_bytes order 4 (Z.of_nat n * 4 + 8) ++ native_bytes order 4 8
  ++ native_bytes order 4 (Z.of_nat n * 4).

(** A writer that only ever appends to the file, whatever its outcome. *)
Definition appends {A : Type} (m : writer A) : Prop :=
  forall (f : list byte), exists a, snd (m f) = f ++ a.

(** The number of bytes of the block an array is written as: 24 bytes of
    framing and 4 bytes for each element. *)
Definition block_size (d : block_data) : nat :=
  match len d with
  | Ok n => 24 + 4 * n
  | Raise _ => 0
  end.

(** The arrays of the data list that [write_snapshot] writes, in the order
    of their blocks. *)
Definition written_arrays (N_gas : Z) (data_list : list block_data) : list block_data :=
  firstn 4 data_list
  ++ (if 0 <? N_gas
      then firstn 1 (skipn 4 data_list)
           ++ firstn 1 (skipn 7 data_list)
           ++ firstn 2 (skipn 5 data_list)
      else []).

(** The size of a complete snapshot file: the HEAD block of 280 bytes and
    the blocks of the arrays written. *)
Definition snapshot_size (N_gas : Z) (data_list : list block_data) : nat :=
  280 + list_sum (map block_size (written_arrays N_gas data_list)).

(** The outcome of [write_block] stage by stage: the marker 8 is always
    written; then the name, if it packs; then the three markers, if the
    size is known and fits; then the payload, if it packs, and the closing
    marker. *)
Definition write_block_outcome (order : byte_order) (data : block_data)
  (data_type : option fmt_code) (block_name : string) (f : list byte)
  : result unit * list byte :=
  let f1 := f ++ native_bytes order 4 8 in
  match struct_pack order (repeat Fmt_c 4)
          (map (fun ch => PyBytes (utf8_encode ch)) (list_ascii_of_string block_name)) with
  | Raise e => (Raise e, f1)
  | Ok nm =>
      let f2 := f1 ++ nm in
      match block_nbytes data data_type block_name with
      | Raise e => (Raise e, f2)
      | Ok nbytes =>
          if in_int32 (nbytes + 8)
          then
            let f3 := f2 ++ native_bytes order 4 (nbytes + 8)
                         ++ native_bytes order 4 8 ++ native_bytes order 4 nbytes in
            match block_payload order data data_type block_name with
            | Raise e => (Raise e, f3)
            | Ok payload => (Ok tt, f3 ++ payload ++ native_bytes order 4 nbytes)
            end
          else (Raise StructError, f2)
      end
  end.

(** [bs] holds the pattern [bits] in [size] bytes in the byte order
    [order]: the byte of significance [k] lies where that order puts it,
    and a reader of that order gets the pattern back. This is stated on
    the bytes alone, without the packers. *)
Definition native_field (order : byte_order) (size : nat) (bits : Z)
  (bs : list byte) : Prop :=
  length bs = size /\
  (forall k, (k < size)%nat ->
     nth (byte_position order size k) bs x00
     = byte_of_Z (Z.shiftr bits (8 * Z.of_nat k))) /\
  native_value order bs = bits mod 2 ^ (8 * Z.of_nat size).

(** The 32-bit integers of the header, each with its byte offset: the
    counts, the star-formation and feedback flags, the total counts, the
    cooling flag, the file count, the age and metals flags. *)
Definition header_int_fields (n_part : list Z) : list (nat * Z) :=
  combine (map (fun k => 4 * k)%nat (seq 0 6)) n_part
  ++ [(88%nat, 0); (92%nat, 0)]
  ++ combine (map (fun k => 96 + 4 * k)%nat (seq 0 6)) n_part
  ++ [(120%nat, 0); (124%nat, 1); (160%nat, 0); (164%nat, 0)].

(** The doubles of the header, each with its byte offset: the mass table,
    time, redshift, box size, Omega_0, Omega_Lambda and the Hubble
    parameter. *)
Definition header_double_fields : list (nat * spec_float) :=
  map (fun k => (24 + 8 * k, float_zero)%nat) (seq 0 6)
  ++ [(72%nat, float_zero); (80%nat, float_zero);
      (128%nat, float_zero); (136%nat, float_zero); (144%nat, float_zero);
      (152%nat, float_one)].

(** * Properties *)

(** ** Outcomes *)

Lemma bind_result_Ok_inv (A B : Type) (r : result A) (k : A -> result B) (b : B) :
  bind_result r k = Ok b -> exists a, r = Ok a /\ k a = Ok b.
Proof.
  destruct r as [a|e]; simpl; intros H; [eauto | discriminate].
Qed.

Lemma bind_w_Ok_inv (A B : Type) (m : writer A) (k : A -> writer B) f b f' :
  bind_w m k f = (Ok b, f') ->
  exists a f1, m f = (Ok a, f1) /\ k a f1 = (Ok b, f').
Proof.
  unfold bind_w. destruct (m f) as [[a|e] f1]; intros H.
  - exists a, f1. split; [reflexivity | exact H].
  - discriminate.
Qed.

Lemma lift_w_Ok_inv (A : Type) (r : result A) f a f' :
  lift_w r f = (Ok a, f') -> r = Ok a /\ f' = f.
Proof.
  unfold lift_w. intros H. inversion H. split; reflexivity.
Qed.

(** ** Bytes and their values *)

Lemma Z_of_byte_of_Z (z : Z) : Z_of_byte (byte_of_Z z) = z mod 256.
Proof.
  unfold Z_of_byte, byte_of_Z.
  change 255 with (Z.ones 8). rewrite Z.land_ones by lia. change (2 ^ 8) with 256.
  pose proof (Z.mod_pos_bound z 256 ltac:(lia)) as Hb.
  destruct (Byte.of_N (Z.to_N (z mod 256))) as [b|] eqn:E.
  - apply Byte.to_of_N in E. rewrite E. lia.
  - apply Byte.of_N_None_iff in E. lia.
Qed.

Lemma length_le_bytes (n : nat) (x : Z) : length (le_bytes n x) = n.
Proof.
  revert x. induction n as [|n IH]; intros x; simpl; [reflexivity | now rewrite IH].
Qed.

Lemma le_value_le_bytes (n : nat) (x : Z) :
  le_value (le_bytes n x) = x mod 2 ^ (8 * Z.of_nat n).
Proof.
  revert x. induction n as [|n IH]; intros x.
  - simpl. now rewrite Z.mod_1_r.
  - cbn [le_bytes le_value]. rewrite Z_of_byte_of_Z, IH, Z.shiftr_div_pow2 by lia.
    replace (8 * Z.of_nat (S n)) with (8 + 8 * Z.of_nat n) by lia.
    rewrite Z.pow_add_r by lia. change (2 ^ 8) with 256.
    rewrite Z.rem_mul_r by lia. reflexivity.
Qed.

Lemma be_value_rev (l : list byte) : be_value (rev l) = le_value l.
Proof.
  unfold be_value. induction l as [|b l IH]; [reflexivity|].
  cbn [rev le_value]. rewrite fold_left_app. cbn [fold_left]. rewrite IH. lia.
Qed.

Lemma length_native_bytes (order : byte_order) (n : nat) (x : Z) :
  length (native_bytes order n x) = n.
Proof.
  destruct order; simpl; [|rewrite length_rev]; apply length_le_bytes.
Qed.

(** Reading back in the order of the host gives the pattern written. *)
Lemma native_value_native_bytes (order : byte_order) (n : nat) (x : Z) :
  native_value order (native_bytes order n x) = x mod 2 ^ (8 * Z.of_nat n).
Proof.
  destruct order; simpl; [|rewrite be_value_rev]; apply le_value_le_bytes.
Qed.

Lemma in_int32_bounds (z : Z) :
  in_int32 z = true <-> -2147483648 <= z <= 2147483647.
Proof.
  unfold in_int32. rewrite andb_true_iff, !Z.leb_le. tauto.
Qed.

Lemma signed32_mod (z : Z) :
  in_int32 z = true -> signed32 (z mod 4294967296) = z.
Proof.
  rewrite in_int32_bounds. intros Hz. unfold signed32.
  destruct (Z.ltb_spec (z mod 4294967296) 2147483648) as [Hlt|Hge].
  - destruct (Z.neg_nonneg_cases z) as [Hneg|Hpos].
    + rewrite <- (Z.mod_add z 1 4294967296) in Hlt by lia.
      rewrite Z.mod_small in Hlt by lia. lia.
    + apply Z.mod_small. lia.
  - destruct (Z.neg_nonneg_cases z) as [Hneg|Hpos].
    + rewrite <- (Z.mod_add z 1 4294967296) by lia.
      rewrite Z.mod_small by lia. lia.
    + rewrite Z.mod_small in Hge by lia. lia.
Qed.

Lemma holds_int32_native_bytes (order : byte_order) (z : Z) :
  in_int32 z = true -> holds_int32 order (native_bytes order 4 z) z.
Proof.
  intros Hz. split.
  - apply length_native_bytes.
  - rewrite native_value_native_bytes. change (2 ^ (8 * Z.of_nat 4)) with 4294967296.
    now apply signed32_mod.
Qed.

(** ** Packing *)

Lemma struct_pack_int (order : byte_order) (z : Z) :
  struct_pack order [Fmt_i] [PyInt z]
  = if in_int32 z then Ok (native_bytes order 4 z) else Raise StructError.
Proof.
  unfold struct_pack. simpl.
  destruct (in_int32 z); simpl; [|reflexivity].
  now rewrite app_nil_r.
Qed.

Lemma pack_item_length (order : byte_order) (c : fmt_code) (v : pyval) (bs : list byte) :
  pack_item order c v = Ok bs -> length bs = code_size c.
Proof.
  destruct c; simpl.
  - destruct v as [z|f|[|b [|b' l]]]; intros H; inversion H; reflexivity.
  - destruct v as [z|f|l]; try discriminate.
    destruct (in_int32 z); intros H; inversion H. apply length_native_bytes.
  - intros H. apply bind_result_Ok_inv in H as (d & _ & H). inversion H.
    apply length_native_bytes.
  - intros H. apply bind_result_Ok_inv in H as (d & _ & H). inversion H.
    apply length_native_bytes.
Qed.

Lemma align_pad_aligned (off : nat) (c : fmt_code) :
  (off mod code_size c = 0)%nat -> align_pad off c = [].
Proof.
  intros H. unfold align_pad. rewrite H, Nat.sub_0_r, Nat.Div0.mod_same. reflexivity.
Qed.

(** A format made of one code repeated lays the items side by side: from
    an aligned offset no padding is ever needed. *)
Lemma pack_items_repeat (order : byte_order) (c : fmt_code) (vals : list pyval) (off : nat) :
  (off mod code_size c = 0)%nat ->
  pack_items order off (repeat c (length vals)) vals = pack_each order c vals.
Proof.
  revert off. induction vals as [|v vals IH]; intros off Hoff; [reflexivity|].
  cbn [length repeat pack_items pack_each].
  rewrite (align_pad_aligned _ _ Hoff). cbn [length app].
  rewrite IH; [reflexivity|].
  rewrite Nat.add_0_r, <- Nat.Div0.add_mod_idemp_l, Hoff. cbn [Nat.add].
  apply Nat.Div0.mod_same.
Qed.

Lemma struct_pack_repeat (order : byte_order) (c : fmt_code) (n : nat) (vals : list pyval) :
  struct_pack order (repeat c n) vals
  = if Nat.eqb n (length vals) then pack_each order c vals else Raise StructError.
Proof.
  unfold struct_pack. rewrite repeat_length.
  destruct (Nat.eqb_spec n (length vals)) as [->|Hne]; [|reflexivity].
  apply pack_items_repeat. apply Nat.Div0.mod_0_l.
Qed.

Lemma pack_each_length (order : byte_order) (c : fmt_code) (vals : list pyval) (bs : list byte) :
  pack_each order c vals = Ok bs -> length bs = (length vals * code_size c)%nat.
Proof.
  revert bs. induction vals as [|v vals IH]; intros bs H.
  - inversion H. reflexivity.
  - cbn [pack_each] in H.
    apply bind_result_Ok_inv in H as (item & Hitem & H).
    apply bind_result_Ok_inv in H as (tl & Htl & H).
    inversion H. rewrite length_app, (pack_item_length _ _ _ _ Hitem), (IH _ Htl).
    simpl. lia.
Qed.

(** ** [write_dummy] and [write_block] *)

Lemma write_dummy_Ok (order : byte_order) (vals : list Z) (f : list byte) :
  forallb in_int32 vals = true ->
  write_dummy order vals f = (Ok tt, f ++ flat_map (native_bytes order 4) vals).
Proof.
  revert f. induction vals as [|z vals IH]; intros f H.
  - simpl. now rewrite app_nil_r.
  - cbn [forallb] in H. apply andb_true_iff in H as [Hz Hvals].
    cbn [write_dummy flat_map]. unfold bind_w at 1, lift_w.
    rewrite struct_pack_int, Hz. unfold bind_w at 1, f_write.
    rewrite (IH _ Hvals), <- app_assoc. reflexivity.
Qed.

Lemma write_dummy_Ok_inv (order : byte_order) (vals : list Z) (f f' : list byte) (u : unit) :
  write_dummy order vals f = (Ok u, f') ->
  forallb in_int32 vals = true /\ f' = f ++ flat_map (native_bytes order 4) vals.
Proof.
  revert f. induction vals as [|z vals IH]; intros f H.
  - inversion H. simpl. now rewrite app_nil_r.
  - cbn [write_dummy] in H.
    apply bind_w_Ok_inv in H as (d & f1 & Hd & H).
    apply lift_w_Ok_inv in Hd as [Hd ->]. rewrite struct_pack_int in Hd.
    destruct (in_int32 z) eqn:Hz; [|discriminate]. inversion Hd; subst d.
    apply bind_w_Ok_inv in H as (u' & f2 & Hw & H).
    unfold f_write in Hw. inversion Hw; subst f2.
    apply IH in H as [Hvals ->]. cbn [forallb flat_map].
    rewrite Hz, Hvals, <- app_assoc. split; reflexivity.
Qed.

Lemma utf8_encode_single (ch : ascii) (b : byte) :
  utf8_encode ch = [b] -> b = byte_of_ascii ch.
Proof.
  destruct ch as [[] [] [] [] [] [] [] []]; vm_compute; intros H;
    solve [discriminate H | injection H as <-; reflexivity].
Qed.

Lemma pack_each_name (order : byte_order) (chars : list ascii) (nm : list byte) :
  pack_each order Fmt_c (map (fun ch => PyBytes (utf8_encode ch)) chars) = Ok nm ->
  nm = map byte_of_ascii chars.
Proof.
  revert nm. induction chars as [|ch chars IH]; intros nm H.
  - inversion H. reflexivity.
  - cbn [map pack_each] in H.
    apply bind_result_Ok_inv in H as (item & Hitem & H).
    apply bind_result_Ok_inv in H as (tl & Htl & H).
    inversion H; subst nm. rewrite (IH _ Htl).
    cbn [pack_item] in Hitem.
    destruct (utf8_encode ch) as [|b [|b' l]] eqn:E; try discriminate.
    inversion Hitem; subst item.
    apply utf8_encode_single in E. subst b. reflexivity.
Qed.

(** Packing the name succeeds only for four characters below U+0080, and
    gives their four bytes. *)
Lemma pack_name_Ok_inv (order : byte_order) (block_name : string) (nm : list byte) :
  struct_pack order (repeat Fmt_c 4)
    (map (fun ch => PyBytes (utf8_encode ch)) (list_ascii_of_string block_name)) = Ok nm ->
  nm = name_bytes block_name /\ length nm = 4%nat.
Proof.
  rewrite struct_pack_repeat, length_map.
  destruct (Nat.eqb_spec 4 (length (list_ascii_of_string block_name))) as [Hlen|]; [|discriminate].
  intros H. apply pack_each_name in H. subst nm. split; [reflexivity|].
  now rewrite length_map.
Qed.

(** What a successful [write_block] has done: the declared size and the
    payload are the ones of [block_nbytes] and [block_payload], and the
    bytes appended are the five markers around the name and the payload. *)
Lemma write_block_Ok_inv (order : byte_order) (data : block_data)
  (data_type : option fmt_code) (block_name : string) (f f' : list byte) (u : unit) :
  write_block order data data_type block_name f = (Ok u, f') ->
  exists (nbytes : Z) (payload : list byte),
    block_nbytes data data_type block_name = Ok nbytes /\
    block_payload order data data_type block_name = Ok payload /\
    length (name_bytes block_name) = 4%nat /\
    in_int32 (nbytes + 8) = true /\ in_int32 nbytes = true /\
    f' = f ++ native_bytes order 4 8 ++ name_bytes block_name
           ++ native_bytes order 4 (nbytes + 8) ++ native_bytes order 4 8
           ++ native_bytes order 4 nbytes ++ payload ++ native_bytes order 4 nbytes.
Proof.
  unfold write_block, block_nbytes, block_payload. intros H.
  apply bind_w_Ok_inv in H as (u1 & f1 & H1 & H).
  apply write_dummy_Ok_inv in H1 as [_ ->].
  apply bind_w_Ok_inv in H as (nm & f2 & H2 & H).
  apply lift_w_Ok_inv in H2 as [H2 ->].
  apply pack_name_Ok_inv in H2 as [-> Hlen].
  apply bind_w_Ok_inv in H as (u3 & f3 & H3 & H).
  unfold f_write in H3. inversion H3; subst f3; clear H3.
  apply bind_w_Ok_inv in H as ([fmt nbytes] & f4 & H4 & H).
  cbn [fst snd] in H.
  apply bind_w_Ok_inv in H as (u5 & f5 & H5 & H).
  apply write_dummy_Ok_inv in H5 as [Hrange ->].
  cbn [forallb] in Hrange. apply andb_true_iff in Hrange as [Hn8 Hrange].
  apply andb_true_iff in Hrange as [_ Hrange].
  apply andb_true_iff in Hrange as [Hn _].
  apply bind_w_Ok_inv in H as (u6 & f6 & H6 & H).
  apply write_dummy_Ok_inv in H as [_ ->].
  cbn [flat_map]. rewrite !app_nil_r.
  destruct (String.eqb block_name "HEAD").
  - unfold ret_w in H4. inversion H4; subst fmt nbytes f4; clear H4.
    destruct data as [bs| |]; try discriminate.
    unfold f_write in H6. inversion H6; subst f6; clear H6.
    exists 256, bs. repeat split; try assumption.
    now rewrite <- !app_assoc.
  - apply bind_w_Ok_inv in H4 as (n & f4' & Hlen4 & H4).
    apply lift_w_Ok_inv in Hlen4 as [Hlen4 ->]. rewrite Hlen4. cbn [bind_result].
    destruct data_type as [c|]; [|discriminate].
    unfold ret_w in H4. inversion H4; subst fmt nbytes f4; clear H4.
    apply bind_w_Ok_inv in H6 as (fmt & f7 & H7 & H6).
    unfold local, ret_w in H7. inversion H7; subst fmt f7; clear H7.
    apply bind_w_Ok_inv in H6 as (args & f8 & H8 & H6).
    apply lift_w_Ok_inv in H8 as [H8 ->]. rewrite H8. cbn [bind_result].
    apply bind_w_Ok_inv in H6 as (payload & f9 & H9 & H6).
    apply lift_w_Ok_inv in H9 as [H9 ->].
    unfold f_write in H6. inversion H6; subst f6; clear H6.
    exists (Z.of_nat n * 4), payload. repeat split; try assumption.
    now rewrite <- !app_assoc.
Qed.

(** A block is written whenever its name is made of four ASCII characters,
    its payload packs and its size fits the markers. *)
Lemma utf8_encode_ascii (ch : ascii) :
  (N_of_ascii ch < 128)%N -> utf8_encode ch = [byte_of_ascii ch].
Proof.
  destruct ch as [[] [] [] [] [] [] [] []]; intros H;
    solve [reflexivity | vm_compute in H; discriminate H].
Qed.

Lemma pack_each_ascii (order : byte_order) (chars : list ascii) :
  Forall (fun ch => (N_of_ascii ch < 128)%N) chars ->
  pack_each order Fmt_c (map (fun ch => PyBytes (utf8_encode ch)) chars)
  = Ok (map byte_of_ascii chars).
Proof.
  induction 1 as [|ch chars Hch _ IH]; [reflexivity|].
  cbn [map pack_each pack_item]. rewrite (utf8_encode_ascii ch Hch), IH. reflexivity.
Qed.

Lemma pack_name_Ok (order : byte_order) (block_name : string) :
  ascii_name block_name ->
  struct_pack order (repeat Fmt_c 4)
    (map (fun ch => PyBytes (utf8_encode ch)) (list_ascii_of_string block_name))
  = Ok (name_bytes block_name).
Proof.
  intros [Hlen Hascii]. rewrite struct_pack_repeat, length_map, Hlen. cbn [Nat.eqb].
  now apply pack_each_ascii.
Qed.

Lemma write_block_Ok (order : byte_order) (data : block_data)
  (data_type : option fmt_code) (block_name : string) (f : list byte)
  (nbytes : Z) (payload : list byte) :
  ascii_name block_name ->
  block_nbytes data data_type block_name = Ok nbytes ->
  block_payload order data data_type block_name = Ok payload ->
  in_int32 (nbytes + 8) = true ->
  write_block order data data_type block_name f
  = (Ok tt, f ++ native_bytes order 4 8 ++ name_bytes block_name
            ++ native_bytes order 4 (nbytes + 8) ++ native_bytes order 4 8
            ++ native_bytes order 4 nbytes ++ payload ++ native_bytes order 4 nbytes).
Proof.
  intros Hname Hn Hp H8. unfold write_block, block_nbytes, block_payload in *.
  assert (Hr : in_int32 nbytes = true).
  { apply in_int32_bounds. apply in_int32_bounds in H8.
    destruct (String.eqb block_name "HEAD").
    - inversion Hn. lia.
    - destruct (len data) as [n|]; [|discriminate]. cbn [bind_result] in Hn.
      destruct data_type; [|discriminate]. inversion Hn. lia. }
  unfold bind_w at 1. rewrite write_dummy_Ok by reflexivity.
  unfold bind_w at 1, lift_w. rewrite (pack_name_Ok order block_name Hname).
  unfold bind_w at 1, f_write.
  destruct (String.eqb block_name "HEAD").
  - inversion Hn; subst nbytes.
    destruct data as [bs| |]; try discriminate. inversion Hp; subst payload.
    unfold bind_w at 1, ret_w. cbn [fst snd].
    unfold bind_w at 1. rewrite write_dummy_Ok by reflexivity.
    unfold bind_w at 1.
    rewrite write_dummy_Ok by reflexivity.
    cbn [flat_map]. rewrite !app_nil_r, <- !app_assoc. reflexivity.
  - destruct (len data) as [n|]; [|discriminate]. cbn [bind_result] in *.
    destruct data_type as [c|]; [|discriminate]. inversion Hn; subst nbytes.
    destruct (unpack_args data) as [args|]; [|discriminate]. cbn [bind_result] in Hp.
    unfold bind_w at 1. unfold bind_w at 1. unfold lift_w, ret_w. cbn [fst snd].
    unfold bind_w at 1.
    rewrite write_dummy_Ok by (cbn [forallb]; rewrite H8, Hr; reflexivity).
    unfold bind_w at 1. unfold bind_w at 1. cbn [local ret_w].
    unfold bind_w at 1. unfold bind_w at 1. rewrite Hp.
    rewrite write_dummy_Ok by (cbn [forallb]; rewrite Hr; reflexivity).
    cbn [flat_map]. rewrite !app_nil_r, <- !app_assoc. reflexivity.
Qed.

Lemma write_block_writable (order : byte_order) (data : block_data) (c : fmt_code)
  (block_name : string) :
  writable order data c -> ascii_name block_name ->
  String.eqb block_name "HEAD" = false ->
  exists appended, forall f,
    write_block order data (Some c) block_name f = (Ok tt, f ++ appended).
Proof.
  intros (n & args & payload & Hlen & Hargs & Hpack & H8) Hname Hne.
  eexists. intros f.
  apply (write_block_Ok order data (Some c) block_name f (Z.of_nat n * 4) payload Hname).
  - unfold block_nbytes. now rewrite Hne, Hlen.
  - unfold block_payload. rewrite Hne, Hlen. cbn [bind_result]. now rewrite Hargs.
  - exact H8.
Qed.

(** ** [read_header] *)

Lemma parse_header_format : parse_format header_format = Ok header_codes.
Proof. vm_compute. reflexivity. Qed.

Lemma length_h_data (n_part : list Z) :
  length (h_data n_part) = (2 * length n_part + 106)%nat.
Proof.
  unfold h_data. rewrite !length_app, !repeat_length, !length_map. cbn [length]. lia.
Qed.

(** A format laid out in two parts: the second starts where the first ends. *)
Lemma pack_items_app (order : byte_order) (c1 c2 : list fmt_code) (v1 v2 : list pyval)
  (off : nat) :
  length c1 = length v1 ->
  pack_items order off (c1 ++ c2) (v1 ++ v2)
  = bind_result (pack_items order off c1 v1) (fun b1 =>
    bind_result (pack_items order (end_offset off c1) c2 v2) (fun b2 =>
    Ok (b1 ++ b2))).
Proof.
  revert v1 off. induction c1 as [|c c1 IH]; intros [|v v1] off Hlen; try discriminate.
  - cbn [app pack_items bind_result end_offset].
    destruct (pack_items order off c2 v2); reflexivity.
  - injection Hlen as Hlen.
    cbn [app pack_items end_offset]. rewrite (IH _ _ Hlen).
    destruct (pack_item order c v) as [item|]; [|reflexivity]. cbn [bind_result].
    destruct (pack_items order _ c1 v1) as [b1|]; [|reflexivity]. cbn [bind_result].
    destruct (pack_items order _ c2 v2) as [b2|]; [|reflexivity]. cbn [bind_result].
    now rewrite <- !app_assoc.
Qed.

Lemma pack_each_ints (order : byte_order) (zs : list Z) :
  pack_each order Fmt_i (map PyInt zs)
  = if forallb in_int32 zs
    then Ok (flat_map (native_bytes order 4) zs)
    else Raise StructError.
Proof.
  induction zs as [|z zs IH]; [reflexivity|].
  cbn [map pack_each pack_item forallb flat_map]. rewrite IH.
  destruct (in_int32 z); [|reflexivity].
  destruct (forallb in_int32 zs); reflexivity.
Qed.

Lemma pack_items_ints (order : byte_order) (off n : nat) (zs : list Z) :
  length zs = n -> (off mod 4 = 0)%nat ->
  pack_items order off (repeat Fmt_i n) (map PyInt zs)
  = if forallb in_int32 zs
    then Ok (flat_map (native_bytes order 4) zs)
    else Raise StructError.
Proof.
  intros <- Hoff. rewrite <- (length_map PyInt zs).
  rewrite pack_items_repeat by exact Hoff. apply pack_each_ints.
Qed.

(** With six counts the header is packed exactly when every count fits a
    C [int], and it is then the layout of the format. *)
Lemma read_header_six (order : byte_order) (n_part : list Z) :
  length n_part = 6%nat ->
  read_header order n_part
  = if forallb in_int32 n_part
    then Ok (header_layout order n_part)
    else Raise StructError.
Proof.
  intros Hlen. unfold read_header. rewrite parse_header_format. cbn [bind_result].
  unfold struct_pack, h_data, header_codes.
  rewrite !length_app, !repeat_length, !length_map, Hlen. cbn [length Nat.add Nat.eqb].
  rewrite pack_items_app by now rewrite repeat_length, length_map.
  rewrite pack_items_ints; [|exact Hlen|reflexivity].
  destruct (forallb in_int32 n_part) eqn:Hr; [|reflexivity]. cbn [bind_result].
  change (end_offset 0 (repeat Fmt_i 6)) with 24%nat.
  change (repeat (PyFloat float_zero) 6 ++ [PyFloat float_zero] ++ [PyFloat float_zero]
          ++ [PyInt 0] ++ [PyInt 0] ++ map PyInt n_part ++ ?t)
    with ((repeat (PyFloat float_zero) 8 ++ repeat (PyInt 0) 2) ++ map PyInt n_part ++ t).
  rewrite pack_items_app by reflexivity.
  change (end_offset 24 (repeat Fmt_d 8 ++ repeat Fmt_i 2)) with 96%nat.
  rewrite (pack_items_app order (repeat Fmt_i 6) _ (map PyInt n_part))
    by now rewrite repeat_length, length_map.
  change (end_offset 96 (repeat Fmt_i 6)) with 120%nat.
  rewrite pack_items_ints; [|exact Hlen|reflexivity].
  rewrite Hr. cbn [bind_result].
  unfold header_layout.
  destruct order.
  - vm_compute (pack_items LittleEndian 24 _ _).
    vm_compute (pack_items LittleEndian 120 _ _).
    cbn [bind_result]. reflexivity.
  - vm_compute (pack_items BigEndian 24 _ _).
    vm_compute (pack_items BigEndian 120 _ _).
    cbn [bind_result]. reflexivity.
Qed.

Lemma read_header_wrong_length (order : byte_order) (n_part : list Z) :
  length n_part <> 6%nat -> read_header order n_part = Raise StructError.
Proof.
  intros Hlen. unfold read_header. rewrite parse_header_format. cbn [bind_result].
  unfold struct_pack. rewrite length_h_data.
  change (length header_codes) with 118%nat.
  destruct (Nat.eqb_spec 118 (2 * length n_part + 106)) as [E|_]; [lia|reflexivity].
Qed.

Lemma length_flat_map_fixed (A : Type) (f : A -> list byte) (n : nat) (l : list A) :
  (forall x, length (f x) = n) -> length (flat_map f l) = (length l * n)%nat.
Proof.
  intros Hf. induction l as [|x l IH]; [reflexivity|].
  cbn [flat_map length]. rewrite length_app, Hf, IH. lia.
Qed.

Lemma length_header_layout (order : byte_order) (n_part : list Z) :
  length (header_layout order n_part) = (8 * length n_part + 208)%nat.
Proof.
  unfold header_layout.
  rewrite !length_app, !repeat_length.
  rewrite !(length_flat_map_fixed _ _ 4%nat) by (intros; apply length_native_bytes).
  rewrite !(length_flat_map_fixed _ _ 8%nat) by (intros; apply length_native_bytes).
  rewrite !length_native_bytes, repeat_length. lia.
Qed.

(** Whenever [read_header] returns, it was given six counts that fit a C
    [int], and it returns the layout. *)
Lemma read_header_Ok_inv (order : byte_order) (n_part : list Z) (hdr : list byte) :
  read_header order n_part = Ok hdr ->
  length n_part = 6%nat /\ forallb in_int32 n_part = true
  /\ hdr = header_layout order n_part.
Proof.
  intros H. destruct (Nat.eq_dec (length n_part) 6) as [Hlen|Hlen].
  - rewrite (read_header_six order n_part Hlen) in H.
    destruct (forallb in_int32 n_part); [|discriminate].
    inversion H. repeat split. exact Hlen.
  - rewrite (read_header_wrong_length order n_part Hlen) in H. discriminate.
Qed.

(** ** Fields of the header *)

Lemma slice_skip (x l : list byte) (off n k : nat) :
  length x = k -> (k <= off)%nat -> slice off n (x ++ l) = slice (off - k) n l.
Proof.
  intros Hx Hk. unfold slice. rewrite skipn_app, Hx.
  rewrite skipn_all2 by lia. reflexivity.
Qed.

Lemma slice_here (x l : list byte) (n : nat) :
  length x = n -> slice 0 n (x ++ l) = x.
Proof.
  intros Hx. unfold slice. cbn [skipn]. rewrite firstn_app, Hx, Nat.sub_diag.
  cbn [firstn]. rewrite app_nil_r. rewrite <- Hx. apply firstn_all.
Qed.

Lemma header_layout_six (order : byte_order) (a b c d e g : Z) :
  let int32 z := native_bytes order 4 z in
  let double f := native_bytes order 8 (bits_of_binary64 f) in
  header_layout order [a; b; c; d; e; g]
  = int32 a ++ int32 b ++ int32 c ++ int32 d ++ int32 e ++ int32 g
    ++ double float_zero ++ double float_zero ++ double float_zero
    ++ double float_zero ++ double float_zero ++ double float_zero
    ++ double float_zero ++ double float_zero
    ++ int32 0 ++ int32 0
    ++ int32 a ++ int32 b ++ int32 c ++ int32 d ++ int32 e ++ int32 g
    ++ int32 0 ++ int32 1
    ++ double float_zero ++ double float_zero ++ double float_zero
    ++ double float_one
    ++ int32 0 ++ int32 0
    ++ repeat x00 88 ++ [].
Proof.
  intros int32 double. unfold header_layout. fold int32. fold double.
  cbn [flat_map repeat]. rewrite !app_nil_r, <- !app_assoc. reflexivity.
Qed.

(** Walks down a layout written as [x1 ++ x2 ++ ...] to the piece that
    starts at the offset of the slice. *)
Ltac seek_field :=
  repeat (rewrite (slice_skip _ _ _ _ _ (length_native_bytes _ _ _)) by (cbn; lia);
          cbn [Nat.sub]);
  first [ rewrite slice_here by apply length_native_bytes
        | rewrite slice_here by apply repeat_length ].

Lemma int_at_field (order : byte_order) (bs : list byte) (off : nat) (z : Z) :
  slice off 4 bs = native_bytes order 4 z -> in_int32 z = true ->
  int_at order bs off = z.
Proof.
  intros Hs Hz. unfold int_at. rewrite Hs, native_value_native_bytes.
  now apply signed32_mod.
Qed.

Lemma double_at_field (order : byte_order) (bs : list byte) (off : nat) (f : spec_float) :
  slice off 8 bs = native_bytes order 8 (bits_of_binary64 f) ->
  binary64_of_bits (bits_of_binary64 f mod 2 ^ 64) = f ->
  double_at order bs off = f.
Proof.
  intros Hs Hf. unfold double_at. rewrite Hs, native_value_native_bytes. exact Hf.
Qed.

Lemma length_six_inv (A : Type) (l : list A) :
  length l = 6%nat -> exists a b c d e g, l = [a; b; c; d; e; g].
Proof.
  destruct l as [|a [|b [|c [|d [|e [|g [|h l]]]]]]]; try discriminate.
  intros _. now exists a, b, c, d, e, g.
Qed.

(** C10, as amended. For six counts that each fit a signed 32-bit integer,
    [read_header] returns a header, of 256 bytes, and it is the layout of
    the format computed from the counts alone: the counts at offsets
    0..20, six mass entries 0.0 at 24..64, time and redshift 0.0, the
    star-formation and feedback flags 0, the total counts, equal to the
    counts, at 96..116, the cooling flag 0, the file count 1, box size,
    Omega_0 and Omega_Lambda 0.0, the Hubble parameter 1.0, the age and
    metals flags 0, and 88 zero bytes. Nothing but [n_part] enters it. *)
Theorem read_header_fields (order : byte_order) (n_part : list Z) :
  length n_part = 6%nat ->
  forallb in_int32 n_part = true ->
  exists hdr : list byte,
    read_header order n_part = Ok hdr /\
    hdr = header_layout order n_part /\
    length hdr = 256%nat /\
    (forall k, (k < 6)%nat -> int_at order hdr (4 * k) = nth k n_part 0) /\
    (forall k, (k < 6)%nat -> double_at order hdr (24 + 8 * k) = float_zero) /\
    double_at order hdr 72 = float_zero /\
    double_at order hdr 80 = float_zero /\
    int_at order hdr 88 = 0 /\
    int_at order hdr 92 = 0 /\
    (forall k, (k < 6)%nat -> int_at order hdr (96 + 4 * k) = nth k n_part 0) /\
    int_at order hdr 120 = 0 /\
    int_at order hdr 124 = 1 /\
    double_at order hdr 128 = float_zero /\
    double_at order hdr 136 = float_zero /\
    double_at order hdr 144 = float_zero /\
    double_at order hdr 152 = float_one /\
    int_at order hdr 160 = 0 /\
    int_at order hdr 164 = 0 /\
    slice 168 88 hdr = repeat x00 88.
Proof.
  intros Hlen Hr. exists (header_layout order n_part).
  split; [rewrite (read_header_six order n_part Hlen), Hr; reflexivity|].
  split; [reflexivity|].
  split; [rewrite length_header_layout, Hlen; reflexivity|].
  destruct (length_six_inv _ n_part Hlen) as (a & b & c & d & e & g & ->).
  cbn [forallb] in Hr.
  apply andb_true_iff in Hr as [Ha Hr]. apply andb_true_iff in Hr as [Hb Hr].
  apply andb_true_iff in Hr as [Hc Hr]. apply andb_true_iff in Hr as [Hd Hr].
  apply andb_true_iff in Hr as [He Hr]. apply andb_true_iff in Hr as [Hg _].
  rewrite header_layout_six. cbv zeta.
  repeat split.
  - intros k Hk.
    destruct k as [|[|[|[|[|[|k]]]]]]; [..|lia]; cbn [Nat.mul Nat.add nth];
      (apply int_at_field; [seek_field; reflexivity|assumption]).
  - intros k Hk.
    destruct k as [|[|[|[|[|[|k]]]]]]; [..|lia]; cbn [Nat.mul Nat.add];
      (apply double_at_field; [seek_field; reflexivity|reflexivity]).
  - apply double_at_field; [seek_field; reflexivity|reflexivity].
  - apply double_at_field; [seek_field; reflexivity|reflexivity].
  - apply int_at_field; [seek_field; reflexivity|reflexivity].
  - apply int_at_field; [seek_field; reflexivity|reflexivity].
  - intros k Hk.
    destruct k as [|[|[|[|[|[|k]]]]]]; [..|lia]; cbn [Nat.mul Nat.add nth];
      (apply int_at_field; [seek_field; reflexivity|assumption]).
  - apply int_at_field; [seek_field; reflexivity|reflexivity].
  - apply int_at_field; [seek_field; reflexivity|reflexivity].
  - apply double_at_field; [seek_field; reflexivity|reflexivity].
  - apply double_at_field; [seek_field; reflexivity|reflexivity].
  - apply double_at_field; [seek_field; reflexivity|reflexivity].
  - apply double_at_field; [seek_field; reflexivity|reflexivity].
  - apply int_at_field; [seek_field; reflexivity|reflexivity].
  - apply int_at_field; [seek_field; reflexivity|reflexivity].
  - seek_field. reflexivity.
Qed.

Lemma read_header_fields_witness :
  length [100; 50; 0; 0; 0; 0] = 6%nat /\
  forallb in_int32 [100; 50; 0; 0; 0; 0] = true /\
  exists hdr : list byte,
    read_header LittleEndian [100; 50; 0; 0; 0; 0] = Ok hdr /\
    length hdr = 256%nat /\
    int_at LittleEndian hdr 0 = 100 /\
    int_at LittleEndian hdr 124 = 1 /\
    double_at LittleEndian hdr 152 = float_one.
Proof.
  split; [reflexivity|]. split; [reflexivity|].
  destruct (read_header_fields LittleEndian [100; 50; 0; 0; 0; 0] eq_refl eq_refl)
    as (hdr & H & _ & Hl & Hc & _ & _ & _ & _ & _ & _ & _ & H124 & _ & _ & _ & H152 & _).
  exists hdr. split; [exact H|]. split; [exact Hl|].
  split; [exact (Hc 0%nat ltac:(lia))|]. split; [exact H124 | exact H152].
Defined.

(** C10 as stated fails: six counts do not always have a header. A count
    of three billion particles does not fit the 32-bit field, and
    [read_header] raises instead of returning 256 bytes. *)
Lemma read_header_fields_count_too_large :
  length [3000000000; 0; 0; 0; 0; 0] = 6%nat /\
  read_header LittleEndian [3000000000; 0; 0; 0; 0; 0] = Raise StructError /\
  read_header BigEndian [3000000000; 0; 0; 0; 0; 0] = Raise StructError /\
  forall (order : byte_order) (hdr : list byte),
    read_header order [3000000000; 0; 0; 0; 0; 0] <> Ok hdr.
Proof.
  split; [reflexivity|].
  assert (H : forall order, read_header order [3000000000; 0; 0; 0; 0; 0] = Raise StructError).
  { intros order.
    rewrite (read_header_six order [3000000000; 0; 0; 0; 0; 0] eq_refl). reflexivity. }
  split; [apply H|]. split; [apply H|].
  intros order hdr. rewrite H. discriminate.
Qed.

(** C4, as amended. For every sequence of exactly six counts that fit a
    signed 32-bit integer (so for six non-negative integers below 2^31),
    [read_header] returns a byte sequence of exactly 256 bytes. *)
Theorem read_header_256_bytes (order : byte_order) (n_part : list Z) :
  length n_part = 6%nat ->
  Forall (fun c => -2147483648 <= c <= 2147483647) n_part ->
  exists hdr, read_header order n_part = Ok hdr /\ length hdr = 256%nat.
Proof.
  intros Hlen Hrange. rewrite (read_header_six order n_part Hlen).
  replace (forallb in_int32 n_part) with true.
  - eexists. split; [reflexivity|]. rewrite length_header_layout, Hlen. reflexivity.
  - symmetry. apply forallb_forall. intros c Hc.
    apply in_int32_bounds. rewrite Forall_forall in Hrange. now apply Hrange.
Qed.

Lemma read_header_256_bytes_witness :
  length [100; 50; 0; 0; 0; 0] = 6%nat /\
  Forall (fun c => -2147483648 <= c <= 2147483647) [100; 50; 0; 0; 0; 0] /\
  exists hdr, read_header BigEndian [100; 50; 0; 0; 0; 0] = Ok hdr /\ length hdr = 256%nat.
Proof.
  assert (Hr : Forall (fun c => -2147483648 <= c <= 2147483647) [100; 50; 0; 0; 0; 0])
    by (repeat constructor; lia).
  split; [reflexivity|]. split; [exact Hr|].
  apply (read_header_256_bytes BigEndian [100; 50; 0; 0; 0; 0]); [reflexivity|exact Hr].
Defined.

(** C4 as stated fails: six non-negative counts of which one is 2^31 make
    [read_header] raise [struct.error]; no bytes are returned. *)
Lemma read_header_count_out_of_range :
  length [2147483648; 0; 0; 0; 0; 0] = 6%nat /\
  Forall (fun c => 0 <= c) [2147483648; 0; 0; 0; 0; 0] /\
  read_header LittleEndian [2147483648; 0; 0; 0; 0; 0] = Raise StructError /\
  ~ (exists hdr, read_header LittleEndian [2147483648; 0; 0; 0; 0; 0] = Ok hdr
                 /\ length hdr = 256%nat).
Proof.
  assert (H : read_header LittleEndian [2147483648; 0; 0; 0; 0; 0] = Raise StructError)
    by (rewrite read_header_six by reflexivity; reflexivity).
  split; [reflexivity|]. split; [repeat constructor; lia|]. split; [exact H|].
  intros (hdr & Hh & _). rewrite H in Hh. discriminate.
Qed.

(** ** Blocks and the reader *)

Lemma length4_inv (l : list byte) :
  length l = 4%nat -> exists a b c d, l = [a; b; c; d].
Proof.
  destruct l as [|a [|b [|c [|d [|e l]]]]]; try discriminate.
  intros _. now exists a, b, c, d.
Qed.

Lemma name_of_bytes_name_bytes (name : string) :
  name_of_bytes (name_bytes name) = name.
Proof.
  unfold name_of_bytes, name_bytes. rewrite map_map.
  rewrite (map_ext _ (fun x => x)) by apply ascii_of_byte_of_ascii.
  rewrite map_id. apply string_of_list_ascii_of_string.
Qed.

(** The bytes [write_block] appends are framed. *)
Lemma framed_native (order : byte_order) (nm payload : list byte) (nbytes : Z) :
  length nm = 4%nat -> in_int32 (nbytes + 8) = true -> in_int32 nbytes = true ->
  framed order nm nbytes payload
    (native_bytes order 4 8 ++ nm ++ native_bytes order 4 (nbytes + 8)
     ++ native_bytes order 4 8 ++ native_bytes order 4 nbytes ++ payload
     ++ native_bytes order 4 nbytes).
Proof.
  intros Hnm H8 Hn.
  exists (native_bytes order 4 8), (native_bytes order 4 (nbytes + 8)),
    (native_bytes order 4 8), (native_bytes order 4 nbytes), (native_bytes order 4 nbytes).
  repeat split; try (apply length_native_bytes); try assumption;
    try (apply holds_int32_native_bytes; assumption || reflexivity).
Qed.

(** One step of the reader over a whole block. *)
Lemma read_block_names_step (order : byte_order) (fuel : nat)
  (m1 nm m2 m3 m4 payload m5 rest : list byte) (nbytes : Z) :
  holds_int32 order m1 8 -> length nm = 4%nat ->
  holds_int32 order m2 (nbytes + 8) -> holds_int32 order m3 8 ->
  holds_int32 order m4 nbytes -> holds_int32 order m5 nbytes ->
  Z.of_nat (length payload) = nbytes ->
  read_block_names order (S fuel) (m1 ++ nm ++ m2 ++ m3 ++ m4 ++ payload ++ m5 ++ rest)
  = option_map (cons (name_of_bytes nm)) (read_block_names order fuel rest).
Proof.
  intros [L1 V1] Ln [L2 V2] [L3 V3] [L4 V4] [L5 V5] Hp.
  destruct (length4_inv _ L1) as (a1 & a2 & a3 & a4 & ->).
  destruct (length4_inv _ Ln) as (n1 & n2 & n3 & n4 & ->).
  destruct (length4_inv _ L2) as (b1 & b2 & b3 & b4 & ->).
  destruct (length4_inv _ L3) as (c1 & c2 & c3 & c4 & ->).
  destruct (length4_inv _ L4) as (d1 & d2 & d3 & d4 & ->).
  destruct (length4_inv _ L5) as (e1 & e2 & e3 & e4 & ->).
  cbn [app read_block_names slice skipn firstn].
  rewrite V1, V2, V3, V4.
  assert (Hn : Z.to_nat nbytes = length payload) by lia.
  rewrite Hn, !skipn_app, !skipn_all, !Nat.sub_diag. cbn [app skipn firstn].
  rewrite V5, !Z.eqb_refl.
  replace (0 <=? nbytes) with true by (symmetry; apply Z.leb_le; lia).
  cbn [length]. rewrite length_app. cbn [length].
  match goal with
  | |- context [Nat.leb ?x ?y] =>
      replace (Nat.leb x y) with true by (symmetry; apply Nat.leb_le; lia)
  end.
  reflexivity.
Qed.

Lemma good_block_read (order : byte_order) (name : string) (appended rest : list byte)
  (fuel : nat) :
  good_block order name appended ->
  read_block_names order (S fuel) (appended ++ rest)
  = option_map (cons name) (read_block_names order fuel rest).
Proof.
  intros (nbytes & payload & (m1 & m2 & m3 & m4 & m5 & -> & H1 & Hn & H2 & H3 & H4 & H5) & Hp).
  rewrite <- !app_assoc.
  rewrite (read_block_names_step order fuel _ _ _ _ _ _ _ rest _ H1 Hn H2 H3 H4 H5 Hp).
  now rewrite name_of_bytes_name_bytes.
Qed.

Lemma block_seq_read (order : byte_order) (bs : list byte) (names : list string) :
  block_seq order bs names ->
  forall fuel, (length names <= fuel)%nat -> read_block_names order fuel bs = Some names.
Proof.
  induction 1 as [|name appended rest names Hgood Hseq IH]; intros fuel Hfuel.
  - destruct fuel; reflexivity.
  - destruct fuel as [|fuel]; [cbn [length] in Hfuel; lia|].
    rewrite (good_block_read order name appended rest fuel Hgood).
    rewrite IH by (cbn [length] in Hfuel; lia). reflexivity.
Qed.

Lemma good_block_length (order : byte_order) (name : string) (appended : list byte) :
  good_block order name appended -> (24 <= length appended)%nat.
Proof.
  intros (nbytes & payload & (m1 & m2 & m3 & m4 & m5 & -> & [L1 _] & Hn & [L2 _] & [L3 _]
                              & [L4 _] & [L5 _]) & _).
  rewrite !length_app. lia.
Qed.

Lemma block_seq_length (order : byte_order) (bs : list byte) (names : list string) :
  block_seq order bs names -> (length names <= length bs)%nat.
Proof.
  induction 1 as [|name appended rest names Hgood Hseq IH]; [reflexivity|].
  apply good_block_length in Hgood. rewrite length_app. cbn [length]. lia.
Qed.

(** The reader finds the names of a sequence of whole blocks. *)
Lemma block_seq_names (order : byte_order) (bs : list byte) (names : list string) :
  block_seq order bs names -> block_names order bs = Some names.
Proof.
  intros H. apply (block_seq_read order bs names H). now apply block_seq_length with order.
Qed.

Lemma block_seq_snoc (order : byte_order) (bs appended : list byte) (names : list string)
  (name : string) :
  block_seq order bs names -> good_block order name appended ->
  block_seq order (bs ++ appended) (names ++ [name]).
Proof.
  intros Hseq Hgood. induction Hseq as [|name' appended' rest names Hgood' Hseq IH].
  - cbn [app]. rewrite <- (app_nil_r appended). constructor; [exact Hgood|constructor].
  - rewrite <- app_assoc. cbn [app]. constructor; assumption.
Qed.

(** ** The framing of a block *)

(** C2. The bytes a completed [write_block] appends are, in order: a
    4-byte marker holding 8, the four bytes of the name, a marker holding
    [nbytes + 8], a marker holding 8, a marker holding [nbytes], the
    payload, and a marker holding [nbytes]; that is 24 bytes and the
    payload, and nothing else. *)
Theorem write_block_layout (order : byte_order) (data : block_data)
  (data_type : option fmt_code) (block_name : string) (f f' : list byte) :
  write_block order data data_type block_name f = (Ok tt, f') ->
  exists (nbytes : Z) (payload appended : list byte),
    block_nbytes data data_type block_name = Ok nbytes /\
    block_payload order data data_type block_name = Ok payload /\
    f' = f ++ appended /\
    framed order (name_bytes block_name) nbytes payload appended /\
    length appended = (24 + length payload)%nat.
Proof.
  intros H.
  apply write_block_Ok_inv in H as (nbytes & payload & Hn & Hp & Hname & H8 & Hr & ->).
  exists nbytes, payload,
    (native_bytes order 4 8 ++ name_bytes block_name
     ++ native_bytes order 4 (nbytes + 8) ++ native_bytes order 4 8
     ++ native_bytes order 4 nbytes ++ payload ++ native_bytes order 4 nbytes).
  split; [exact Hn|]. split; [exact Hp|]. split; [reflexivity|].
  split; [now apply framed_native|].
  rewrite !length_app, !length_native_bytes, Hname. lia.
Qed.

Lemma write_block_layout_witness :
  write_block LittleEndian sample_ids (Some Fmt_i) "ID  " [] = (Ok tt, sample_id_block) /\
  exists (nbytes : Z) (payload appended : list byte),
    block_nbytes sample_ids (Some Fmt_i) "ID  " = Ok nbytes /\
    block_payload LittleEndian sample_ids (Some Fmt_i) "ID  " = Ok payload /\
    sample_id_block = [] ++ appended /\
    framed LittleEndian (name_bytes "ID  ") nbytes payload appended /\
    length appended = (24 + length payload)%nat.
Proof.
  split; [vm_compute; reflexivity|].
  apply (write_block_layout LittleEndian sample_ids (Some Fmt_i) "ID  " [] sample_id_block).
  vm_compute. reflexivity.
Defined.

Lemma block_payload_length (order : byte_order) (data : block_data) (c : fmt_code)
  (block_name : string) (payload : list byte) (n : nat) :
  String.eqb block_name "HEAD" = false ->
  block_payload order data (Some c) block_name = Ok payload ->
  len data = Ok n ->
  length payload = (n * code_size c)%nat.
Proof.
  unfold block_payload. intros -> H Hlen. rewrite Hlen in H. cbn [bind_result] in H.
  apply bind_result_Ok_inv in H as (args & Hargs & H).
  rewrite struct_pack_repeat in H.
  destruct (Nat.eqb_spec n (length args)) as [->|]; [|discriminate].
  now apply pack_each_length in H.
Qed.

(** C3, as amended. For a completed [write_block] the declared size is 256
    for the name HEAD and four times the element count for any other name;
    the marker before the payload and the marker after it hold that same
    number; and the payload written between them has exactly that many
    bytes when the block is a float or int block, or a HEAD block whose
    data is 256 bytes long. *)
Theorem write_block_declared_size (order : byte_order) (data : block_data)
  (data_type : option fmt_code) (block_name : string) (f f' : list byte) :
  write_block order data data_type block_name f = (Ok tt, f') ->
  exists (nbytes : Z) (head m_open payload m_close : list byte),
    f' = f ++ head ++ m_open ++ payload ++ m_close /\
    length head = 16%nat /\
    block_payload order data data_type block_name = Ok payload /\
    (block_name = "HEAD"%string -> nbytes = 256) /\
    (block_name <> "HEAD"%string ->
     exists n, len data = Ok n /\ nbytes = Z.of_nat n * 4) /\
    holds_int32 order m_open nbytes /\
    holds_int32 order m_close nbytes /\
    signed32 (native_value order m_open) = signed32 (native_value order m_close) /\
    (block_name <> "HEAD"%string ->
     data_type = Some Fmt_f \/ data_type = Some Fmt_i ->
     Z.of_nat (length payload) = nbytes) /\
    (block_name = "HEAD"%string -> len data = Ok 256%nat ->
     Z.of_nat (length payload) = nbytes).
Proof.
  intros H.
  apply write_block_Ok_inv in H as (nbytes & payload & Hn & Hp & Hname & H8 & Hr & ->).
  pose proof (holds_int32_native_bytes order nbytes Hr) as Hm.
  exists nbytes,
    (native_bytes order 4 8 ++ name_bytes block_name ++ native_bytes order 4 (nbytes + 8)
     ++ native_bytes order 4 8),
    (native_bytes order 4 nbytes), payload, (native_bytes order 4 nbytes).
  unfold block_nbytes in Hn.
  split; [now rewrite <- !app_assoc|].
  split; [rewrite !length_app, !length_native_bytes, Hname; reflexivity|].
  split; [exact Hp|].
  split.
  { intros ->. cbn in Hn. now inversion Hn. }
  assert (Hother : block_name <> "HEAD"%string ->
                   exists n, len data = Ok n /\ nbytes = Z.of_nat n * 4).
  { intros Hne. apply String.eqb_neq in Hne. rewrite Hne in Hn.
    destruct (len data) as [n|]; [|discriminate]. cbn [bind_result] in Hn.
    destruct data_type; [|discriminate]. inversion Hn. now exists n. }
  split; [exact Hother|].
  split; [exact Hm|]. split; [exact Hm|]. split; [reflexivity|].
  split.
  - intros Hne Hty. destruct (Hother Hne) as (n & Hlen & ->).
    apply String.eqb_neq in Hne.
    destruct Hty as [-> | ->];
      rewrite (block_payload_length order data _ block_name payload n Hne Hp Hlen);
      cbn [code_size]; lia.
  - intros -> Hlen. cbn in Hn. inversion Hn; subst nbytes.
    unfold block_payload in Hp. cbn [String.eqb Ascii.eqb Bool.eqb] in Hp.
    destruct data as [bs| |]; try discriminate.
    inversion Hp; subst payload. cbn [len] in Hlen. inversion Hlen as [Hl].
    rewrite Hl. reflexivity.
Qed.

Lemma write_block_declared_size_witness :
  write_block BigEndian sample_gas (Some Fmt_f) "MASS" []
  = (Ok tt, sample_gas_block_big_endian) /\
  exists (nbytes : Z) (head m_open payload m_close : list byte),
    sample_gas_block_big_endian = [] ++ head ++ m_open ++ payload ++ m_close /\
    length head = 16%nat /\
    holds_int32 BigEndian m_open nbytes /\
    holds_int32 BigEndian m_close nbytes /\
    Z.of_nat (length payload) = nbytes.
Proof.
  split; [vm_compute; reflexivity|].
  destruct (write_block_declared_size BigEndian sample_gas (Some Fmt_f) "MASS" []
              sample_gas_block_big_endian ltac:(vm_compute; reflexivity))
    as (nbytes & head & m_open & payload & m_close
        & H1 & H2 & _ & _ & _ & H3 & H4 & _ & H5 & _).
  exists nbytes, head, m_open, payload, m_close.
  split; [exact H1|]. split; [exact H2|]. split; [exact H3|]. split; [exact H4|].
  apply H5; [discriminate | left; reflexivity].
Defined.

(** C3 as stated fails for a HEAD block whose data is not 256 bytes long:
    the call completes, both size markers hold 256, and no payload byte
    lies between them. *)
Lemma write_block_head_payload_mismatch :
  write_block LittleEndian (DataBytes []) None "HEAD" []
  = (Ok tt, native_bytes LittleEndian 4 8 ++ name_bytes "HEAD"
            ++ native_bytes LittleEndian 4 264 ++ native_bytes LittleEndian 4 8
            ++ native_bytes LittleEndian 4 256 ++ [] ++ native_bytes LittleEndian 4 256) /\
  block_nbytes (DataBytes []) None "HEAD" = Ok 256 /\
  block_payload LittleEndian (DataBytes []) None "HEAD" = Ok [] /\
  Z.of_nat (length (@nil byte)) <> 256.
Proof.
  repeat split; try (vm_compute; reflexivity). cbn. lia.
Qed.

(** ** [write_snapshot] *)

Lemma block_payload_size (order : byte_order) (data : block_data)
  (data_type : option fmt_code) (block_name : string) (nbytes : Z) (payload : list byte) :
  block_nbytes data data_type block_name = Ok nbytes ->
  block_payload order data data_type block_name = Ok payload ->
  (block_name = "HEAD"%string -> len data = Ok 256%nat) ->
  (block_name <> "HEAD"%string -> data_type = Some Fmt_f \/ data_type = Some Fmt_i) ->
  Z.of_nat (length payload) = nbytes.
Proof.
  intros Hn Hp Hhead Hother. unfold block_nbytes in Hn.
  destruct (String.eqb_spec block_name "HEAD") as [->|Hne].
  - specialize (Hhead eq_refl). inversion Hn; subst nbytes.
    unfold block_payload in Hp. cbn [String.eqb Ascii.eqb Bool.eqb] in Hp.
    destruct data as [bs| |]; try discriminate.
    inversion Hp; subst payload. cbn [len] in Hhead. inversion Hhead as [Hl].
    rewrite Hl. reflexivity.
  - destruct (len data) as [n|] eqn:Hlen; [|discriminate]. cbn [bind_result] in Hn.
    pose proof Hne as Hne'. apply String.eqb_neq in Hne'.
    destruct (Hother Hne) as [-> | ->]; inversion Hn;
      rewrite (block_payload_length order data _ block_name payload n Hne' Hp Hlen);
      cbn [code_size]; lia.
Qed.

Lemma write_block_good (order : byte_order) (data : block_data)
  (data_type : option fmt_code) (block_name : string) (f f' : list byte) (u : unit) :
  write_block order data data_type block_name f = (Ok u, f') ->
  (block_name = "HEAD"%string -> len data = Ok 256%nat) ->
  (block_name <> "HEAD"%string -> data_type = Some Fmt_f \/ data_type = Some Fmt_i) ->
  exists appended, f' = f ++ appended /\ good_block order block_name appended.
Proof.
  intros H Hhead Hother.
  apply write_block_Ok_inv in H as (nbytes & payload & Hn & Hp & Hname & H8 & Hr & ->).
  eexists. split; [reflexivity|].
  exists nbytes, payload. split; [now apply framed_native|].
  now apply (block_payload_size order data data_type block_name).
Qed.

Lemma write_block_seq (order : byte_order) (data : block_data)
  (data_type : option fmt_code) (block_name : string) (f f' : list byte) (u : unit)
  (names : list string) :
  block_seq order f names ->
  write_block order data data_type block_name f = (Ok u, f') ->
  (block_name = "HEAD"%string -> len data = Ok 256%nat) ->
  (block_name <> "HEAD"%string -> data_type = Some Fmt_f \/ data_type = Some Fmt_i) ->
  block_seq order f' (names ++ [block_name]).
Proof.
  intros Hseq H Hhead Hother.
  destruct (write_block_good order data data_type block_name f f' u H Hhead Hother)
    as (appended & -> & Hgood).
  now apply block_seq_snoc.
Qed.

Ltac block_step H Hseq :=
  let u := fresh "u" in let f1 := fresh "f" in let Hb := fresh "Hb" in
  apply bind_w_Ok_inv in H as (u & f1 & Hb & H);
  apply (write_block_seq _ _ _ _ _ _ _ _ Hseq) in Hb;
  [ clear Hseq; rename Hb into Hseq; cbn [app] in Hseq
  | try (intros; discriminate)
  | try (intros _; (left; reflexivity) || (right; reflexivity)) ].

Ltac last_block_step H Hseq :=
  apply (write_block_seq _ _ _ _ _ _ _ _ Hseq) in H;
  [ clear Hseq; rename H into Hseq; cbn [app] in Hseq
  | try (intros; discriminate)
  | try (intros _; (left; reflexivity) || (right; reflexivity)) ].

Ltac local_step H :=
  let x := fresh "x" in let f1 := fresh "f" in let Hx := fresh "Hx" in
  apply bind_w_Ok_inv in H as (x & f1 & Hx & H);
  cbn [local ret_w] in Hx; unfold ret_w in Hx; inversion Hx; subst x f1; clear Hx.

(** C1, as amended. For every call of [write_snapshot] with six counts and
    the format gadget2 that completes without raising, the blocks of the
    file are, in order, HEAD, POS, VEL, ID, MASS, then U only if the gas
    count is positive, then Z only if the data list has an eighth entry
    and the gas count is positive, then RHO and HSML only if the gas count
    is positive. With a gas count of 0 none of U, Z, RHO, HSML is written,
    whatever the data list holds. *)
Theorem write_snapshot_block_names (order : byte_order) (n_part : list Z)
  (data_list : list block_data) :
  length n_part = 6%nat ->
  fst (write_snapshot order n_part data_list "gadget2") = Ok tt ->
  emitted_block_names order (write_snapshot order n_part data_list "gadget2")
  = Some (expected_block_names (nth 0 n_part 0) (7 <? length data_list)%nat).
Proof.
  intros Hlen H. unfold emitted_block_names. unfold write_snapshot in *.
  destruct n_part as [|N_gas rest]; [discriminate Hlen|]. cbn [nth].
  set (n_part := N_gas :: rest) in *.
  destruct (read_header order n_part) as [hdr|] eqn:Hh.
  2:{ exfalso. subst n_part.
      destruct data_list as [|pos [|vel [|ids [|mass gas]]]];
        cbn [py_index nth_error bind_result fst] in H; try discriminate H.
      destruct (0 <? N_gas);
        [destruct gas as [|U [|rho [|sm [|zd more]]]]|destruct gas as [|U [|rho [|sm [|zd more]]]]];
        cbn [py_index nth_error bind_result fst length Nat.ltb Nat.leb
             String.eqb Ascii.eqb Bool.eqb] in H; discriminate H. }
  apply read_header_Ok_inv in Hh as (_ & _ & Hh).
  assert (Hhdr : len (DataBytes hdr) = Ok 256%nat)
    by (cbn [len]; rewrite Hh, length_header_layout, Hlen; reflexivity).
  clear Hh. subst n_part.
  destruct data_list as [|pos [|vel [|ids [|mass gas]]]];
    cbn [py_index nth_error bind_result fst] in *; try discriminate.
  unfold expected_block_names.
  pose proof (block_seq_nil order) as Hseq.
  destruct (0 <? N_gas) eqn:Hgas.
  - destruct gas as [|U [|rho [|sm [|zd more]]]];
      cbn [py_index nth_error bind_result fst snd length Nat.ltb Nat.leb
           String.eqb Ascii.eqb Bool.eqb] in *; try discriminate.
    + match type of H with
      | fst (let (_, _) := ?b [] in _) = _ => destruct (b []) as [r f] eqn:Hb
      end.
      cbn [fst snd] in *. subst r.
      block_step Hb Hseq; [|exact (fun _ => Hhdr)|congruence].
      block_step Hb Hseq. block_step Hb Hseq. block_step Hb Hseq. block_step Hb Hseq.
      local_step Hb. block_step Hb Hseq.
      apply bind_w_Ok_inv in Hb as (uz & fz & Hz & Hb).
      unfold ret_w in Hz. inversion Hz; subst fz; clear Hz.
      local_step Hb. block_step Hb Hseq.
      local_step Hb. last_block_step Hb Hseq.
      now apply block_seq_names.
    + match type of H with
      | fst (let (_, _) := ?b [] in _) = _ => destruct (b []) as [r f] eqn:Hb
      end.
      cbn [fst snd] in *. subst r.
      block_step Hb Hseq; [|exact (fun _ => Hhdr)|congruence].
      block_step Hb Hseq. block_step Hb Hseq. block_step Hb Hseq. block_step Hb Hseq.
      local_step Hb. block_step Hb Hseq.
      block_step Hb Hseq.
      local_step Hb. block_step Hb Hseq.
      local_step Hb. last_block_step Hb Hseq.
      now apply block_seq_names.
  - assert (Hz : exists zd, (if (7 <? length (pos :: vel :: ids :: mass :: gas))%nat
                  then py_index (pos :: vel :: ids :: mass :: gas) 7
                  else Ok DataFalse) = Ok zd).
    { destruct (7 <? _)%nat eqn:E; [|now eexists].
      apply Nat.ltb_lt in E. unfold py_index.
      destruct (nth_error _ 7) eqn:E7; [now eexists|].
      apply nth_error_None in E7. lia. }
    destruct Hz as (zd & Hz). rewrite Hz in *.
    cbn [bind_result String.eqb Ascii.eqb Bool.eqb] in *.
    match type of H with
    | fst (let (_, _) := ?b [] in _) = _ => destruct (b []) as [r f] eqn:Hb
    end.
    cbn [fst snd] in *. subst r.
    block_step Hb Hseq; [|exact (fun _ => Hhdr)|congruence].
    block_step Hb Hseq. block_step Hb Hseq. block_step Hb Hseq. block_step Hb Hseq.
    unfold ret_w in Hb. inversion Hb; subst f.
    rewrite app_nil_r.
    now apply block_seq_names.
Qed.

Lemma write_snapshot_block_names_witness :
  length [1; 0; 0; 0; 0; 0] = 6%nat /\
  fst (write_snapshot LittleEndian [1; 0; 0; 0; 0; 0] sample_data_list "gadget2") = Ok tt /\
  emitted_block_names LittleEndian
    (write_snapshot LittleEndian [1; 0; 0; 0; 0; 0] sample_data_list "gadget2")
  = Some ["HEAD"; "POS "; "VEL "; "ID  "; "MASS"; "U   "; "Z   "; "RHO "; "HSML"]%string.
Proof.
  split; [reflexivity|]. split; [vm_compute; reflexivity|].
  apply (write_snapshot_block_names LittleEndian [1; 0; 0; 0; 0; 0] sample_data_list);
    [reflexivity | vm_compute; reflexivity].
Defined.

(** C1 as stated fails: with six counts and the format gadget2, a data list
    that lacks the arrays makes the call raise before the file is opened,
    and no block at all is written. *)
Lemma write_snapshot_names_short_data_list :
  length [0; 0; 0; 0; 0; 0] = 6%nat /\
  write_snapshot LittleEndian [0; 0; 0; 0; 0; 0] [] "gadget2" = (Raise IndexError, None) /\
  emitted_block_names LittleEndian
    (write_snapshot LittleEndian [0; 0; 0; 0; 0; 0] [] "gadget2")
  <> Some (expected_block_names (nth 0 [0; 0; 0; 0; 0; 0] 0) (7 <? @length block_data [])%nat).
Proof.
  split; [reflexivity|]. split; [reflexivity|]. vm_compute. discriminate.
Qed.

(** ** Calls that complete *)

Lemma Z_data_bound (data_list : list block_data) :
  exists zd,
    (if (7 <? length data_list)%nat then py_index data_list 7 else Ok DataFalse) = Ok zd.
Proof.
  destruct (7 <? length data_list)%nat eqn:E; [|now eexists].
  apply Nat.ltb_lt in E. unfold py_index.
  destruct (nth_error data_list 7) eqn:E7; [now eexists|].
  apply nth_error_None in E7. lia.
Qed.

Ltac ascii_name_tac := split; [reflexivity | repeat constructor].

Ltac run_block Hw name :=
  let a := fresh "a" in let Ha := fresh "Ha" in
  destruct (write_block_writable _ _ _ name Hw ltac:(ascii_name_tac) eq_refl) as (a & Ha);
  unfold bind_w at 1; rewrite Ha; clear Ha.

(** A call with six counts that fit a C [int], the format gadget2 and a
    well-formed data list completes. *)
Lemma write_snapshot_completes (order : byte_order) (n_part : list Z)
  (data_list : list block_data) :
  length n_part = 6%nat ->
  forallb in_int32 n_part = true ->
  well_formed_data order (nth 0 n_part 0) data_list ->
  fst (write_snapshot order n_part data_list "gadget2") = Ok tt.
Proof.
  intros Hlen Hrange (pos & vel & ids & mass & gas & -> & Hpos & Hvel & Hids & Hmass & Hgas).
  unfold write_snapshot. rewrite (read_header_six order n_part Hlen), Hrange.
  assert (Hhead : forall f, exists a,
            write_block order (DataBytes (header_layout order n_part)) None "HEAD" f
            = (Ok tt, f ++ a)).
  { intros f. eexists.
    apply (write_block_Ok order _ None "HEAD" f 256 (header_layout order n_part));
      [ascii_name_tac | reflexivity | reflexivity | reflexivity]. }
  destruct n_part as [|N_gas rest]; [discriminate Hlen|]. cbn [nth] in Hgas.
  cbn [py_index nth_error bind_result].
  destruct (0 <? N_gas) eqn:E.
  - apply Z.ltb_lt in E.
    destruct (Hgas E) as (U & rho & sm & more & -> & HU & Hrho & Hsm & Hzd).
    cbn [py_index nth_error bind_result String.eqb Ascii.eqb Bool.eqb].
    destruct more as [|zd more'].
    + cbn [length Nat.ltb Nat.leb bind_result fst snd].
      destruct (Hhead []) as (a0 & Ha0). unfold bind_w at 1. rewrite Ha0.
      run_block Hpos "POS "%string. run_block Hvel "VEL "%string. run_block Hids "ID  "%string. run_block Hmass "MASS"%string.
      unfold bind_w at 1. cbn [local ret_w]. run_block HU "U   "%string.
      unfold bind_w at 1. unfold ret_w at 1.
      unfold bind_w at 1. cbn [local ret_w]. run_block Hrho "RHO "%string.
      unfold bind_w at 1. cbn [local ret_w].
      destruct (write_block_writable _ _ _ "HSML" Hsm ltac:(ascii_name_tac) eq_refl) as (a_last & Ha).
      rewrite Ha. reflexivity.
    + cbn [length Nat.ltb Nat.leb py_index nth_error bind_result fst snd].
      destruct (Hhead []) as (a0 & Ha0). unfold bind_w at 1. rewrite Ha0.
      run_block Hpos "POS "%string. run_block Hvel "VEL "%string. run_block Hids "ID  "%string. run_block Hmass "MASS"%string.
      unfold bind_w at 1. cbn [local ret_w]. run_block HU "U   "%string.
      pose proof (Hzd zd more' eq_refl) as Hz. run_block Hz "Z   "%string.
      unfold bind_w at 1. cbn [local ret_w]. run_block Hrho "RHO "%string.
      unfold bind_w at 1. cbn [local ret_w].
      destruct (write_block_writable _ _ _ "HSML" Hsm ltac:(ascii_name_tac) eq_refl) as (a_last & Ha).
      rewrite Ha. reflexivity.
  - cbn [bind_result].
    destruct (Z_data_bound (pos :: vel :: ids :: mass :: gas)) as (zd & ->).
    cbn [bind_result String.eqb Ascii.eqb Bool.eqb].
    destruct (Hhead []) as (a0 & Ha0). unfold bind_w at 1. rewrite Ha0.
    run_block Hpos "POS "%string. run_block Hvel "VEL "%string. run_block Hids "ID  "%string.
    destruct (write_block_writable _ _ _ "MASS" Hmass ltac:(ascii_name_tac) eq_refl) as (a_last & Ha).
    unfold bind_w at 1. rewrite Ha. reflexivity.
Qed.

(** ** Failures of [write_snapshot] *)

(** When the format is not gadget2, or the header cannot be packed, the
    call raises before [outfile] is opened. *)
Lemma write_snapshot_not_opened (order : byte_order) (n_part : list Z)
  (data_list : list block_data) (file_format : string) :
  String.eqb file_format "gadget2" = false \/ (exists e, read_header order n_part = Raise e) ->
  exists e, write_snapshot order n_part data_list file_format = (Raise e, None).
Proof.
  intros H. unfold write_snapshot.
  destruct (py_index n_part 0) as [N_gas|]; cbn [bind_result]; [|now eexists].
  destruct (py_index data_list 0); cbn [bind_result]; [|now eexists].
  destruct (py_index data_list 1); cbn [bind_result]; [|now eexists].
  destruct (py_index data_list 2); cbn [bind_result]; [|now eexists].
  destruct (py_index data_list 3); cbn [bind_result]; [|now eexists].
  destruct (Z_data_bound data_list) as (zd & ->).
  destruct (0 <? N_gas).
  - destruct (py_index data_list 4); cbn [bind_result]; [|now eexists].
    destruct (py_index data_list 5); cbn [bind_result]; [|now eexists].
    destruct (py_index data_list 6); cbn [bind_result]; [|now eexists].
    destruct H as [-> | (e & He)]; [now eexists|].
    destruct (String.eqb file_format "gadget2"); [rewrite He|]; now eexists.
  - cbn [bind_result].
    destruct H as [-> | (e & He)]; [now eexists|].
    destruct (String.eqb file_format "gadget2"); [rewrite He|]; now eexists.
Qed.

(** C6. When the gas count is positive and the data list is too short to
    hold the internal energy, density and smoothing length arrays (entries
    4, 5 and 6), the call raises the error of the missing entry, the
    [IndexError] of the list access, whatever the format; [outfile] is
    never opened, so no byte is written. *)
Theorem write_snapshot_missing_gas_arrays (order : byte_order) (n_part : list Z)
  (data_list : list block_data) (file_format : string) :
  0 < nth 0 n_part 0 ->
  (length data_list < 7)%nat ->
  write_snapshot order n_part data_list file_format = (Raise IndexError, None).
Proof.
  intros Hgas Hlen. destruct n_part as [|N_gas rest]; [cbn in Hgas; lia|].
  cbn [nth] in Hgas. apply Z.ltb_lt in Hgas. unfold write_snapshot.
  destruct data_list as [|pos [|vel [|ids [|mass [|U [|rho [|sm more]]]]]]];
    cbn [py_index nth_error bind_result]; try rewrite Hgas;
    cbn [py_index nth_error bind_result]; try reflexivity.
  cbn [length] in Hlen. lia.
Qed.

Lemma write_snapshot_missing_gas_arrays_witness :
  0 < nth 0 [10; 0; 0; 0; 0; 0] 0 /\
  (length (firstn 4 sample_data_list) < 7)%nat /\
  write_snapshot LittleEndian [10; 0; 0; 0; 0; 0] (firstn 4 sample_data_list) "gadget2"
  = (Raise IndexError, None).
Proof.
  assert (H1 : 0 < nth 0 [10; 0; 0; 0; 0; 0] 0) by (cbn; lia).
  assert (H2 : (length (firstn 4 sample_data_list) < 7)%nat) by (cbn; lia).
  split; [exact H1|]. split; [exact H2|].
  exact (write_snapshot_missing_gas_arrays LittleEndian [10; 0; 0; 0; 0; 0]
           (firstn 4 sample_data_list) "gadget2" H1 H2).
Defined.

(** C7, as amended. For every format identifier other than gadget2 the
    call raises and [outfile] is never opened. The error is the
    [ValueError] of the unsupported format whenever the count sequence is
    not empty and the data list holds the arrays the call reads first (four,
    and seven when the gas count is positive); otherwise, when the count
    sequence is empty or one of those arrays is missing, the list access
    raises its [IndexError] first. *)
Theorem write_snapshot_unsupported_format (order : byte_order) (n_part : list Z)
  (data_list : list block_data) (file_format : string) :
  file_format <> "gadget2"%string ->
  (exists e, write_snapshot order n_part data_list file_format = (Raise e, None)) /\
  (n_part <> [] ->
   (4 <= length data_list)%nat ->
   (0 < nth 0 n_part 0 -> (7 <= length data_list)%nat) ->
   write_snapshot order n_part data_list file_format = (Raise ValueError, None)) /\
  (n_part = [] \/ (length data_list < 4)%nat
   \/ (0 < nth 0 n_part 0 /\ (length data_list < 7)%nat) ->
   write_snapshot order n_part data_list file_format = (Raise IndexError, None)).
Proof.
  intros Hfmt. apply String.eqb_neq in Hfmt. split; [|split].
  - apply write_snapshot_not_opened. now left.
  - intros Hne H4 H7. destruct n_part as [|N_gas rest]; [congruence|].
    cbn [nth] in H7. unfold write_snapshot.
    destruct (Z_data_bound data_list) as (zd & Hzd).
    destruct data_list as [|pos [|vel [|ids [|mass gas]]]];
      try (cbn [length] in H4; lia).
    cbn [py_index nth_error bind_result].
    destruct (Z.ltb_spec 0 N_gas) as [Hgas|Hgas].
    + specialize (H7 Hgas).
      destruct gas as [|U [|rho [|sm more]]]; try (cbn [length] in H7; lia).
      cbn [py_index nth_error bind_result].
      rewrite Hzd. cbn [bind_result]. rewrite Hfmt. reflexivity.
    + cbn [bind_result]. rewrite Hzd. cbn [bind_result]. rewrite Hfmt. reflexivity.
  - intros [-> | [H4 | [Hgas H7]]].
    + reflexivity.
    + destruct n_part as [|N_gas rest]; [reflexivity|]. unfold write_snapshot.
      destruct data_list as [|pos [|vel [|ids [|mass gas]]]];
        cbn [py_index nth_error bind_result]; try reflexivity.
      cbn [length] in H4. lia.
    + destruct n_part as [|N_gas rest]; [reflexivity|].
      cbn [nth] in Hgas. apply Z.ltb_lt in Hgas. unfold write_snapshot.
      destruct data_list as [|pos [|vel [|ids [|mass [|U [|rho [|sm more]]]]]]];
        cbn [py_index nth_error bind_result]; try rewrite Hgas;
        cbn [py_index nth_error bind_result]; try reflexivity.
      cbn [length] in H7. lia.
Qed.

Lemma write_snapshot_unsupported_format_witness :
  "hdf5"%string <> "gadget2"%string /\
  write_snapshot LittleEndian [0; 5; 0; 0; 0; 0] (firstn 4 sample_data_list) "hdf5"
  = (Raise ValueError, None) /\
  write_snapshot LittleEndian [5; 0; 0; 0; 0; 0] (firstn 4 sample_data_list) "hdf5"
  = (Raise IndexError, None).
Proof.
  assert (H : "hdf5"%string <> "gadget2"%string) by discriminate.
  split; [exact H|]. split.
  - apply (proj1 (proj2 (write_snapshot_unsupported_format LittleEndian [0; 5; 0; 0; 0; 0]
                           (firstn 4 sample_data_list) "hdf5" H))).
    + discriminate.
    + cbn. lia.
    + cbn. lia.
  - apply (proj2 (proj2 (write_snapshot_unsupported_format LittleEndian [5; 0; 0; 0; 0; 0]
                           (firstn 4 sample_data_list) "hdf5" H))).
    right. right. cbn. lia.
Defined.

(** C7 as stated fails: with a format other than gadget2 and an empty data
    list, the error raised is the [IndexError] of the list access, not the
    [ValueError] of the format. *)
Lemma write_snapshot_format_checked_late :
  "hdf5"%string <> "gadget2"%string /\
  write_snapshot LittleEndian [0; 0; 0; 0; 0; 0] [] "hdf5" = (Raise IndexError, None) /\
  fst (write_snapshot LittleEndian [0; 0; 0; 0; 0; 0] [] "hdf5") <> Raise ValueError.
Proof.
  split; [discriminate|]. split; [reflexivity|]. cbn. discriminate.
Qed.

(** C8. For every count sequence that does not have exactly six elements,
    [read_header] raises [struct.error], the error of a malformed header;
    it is raised by the packing itself, and a [write_snapshot] given such
    counts never opens [outfile]. *)
Theorem read_header_rejects_wrong_length (order : byte_order) (n_part : list Z) :
  length n_part <> 6%nat ->
  read_header order n_part = Raise StructError /\
  forall (data_list : list block_data) (file_format : string),
    snd (write_snapshot order n_part data_list file_format) = None.
Proof.
  intros Hlen. pose proof (read_header_wrong_length order n_part Hlen) as Hh.
  split; [exact Hh|]. intros data_list file_format.
  destruct (write_snapshot_not_opened order n_part data_list file_format) as (e & ->).
  - right. now exists StructError.
  - reflexivity.
Qed.

Lemma read_header_rejects_wrong_length_witness :
  length [100; 50; 0; 0; 0] <> 6%nat /\
  read_header LittleEndian [100; 50; 0; 0; 0] = Raise StructError.
Proof.
  assert (H : length [100; 50; 0; 0; 0] <> 6%nat) by discriminate.
  split; [exact H|].
  exact (proj1 (read_header_rejects_wrong_length LittleEndian [100; 50; 0; 0; 0] H)).
Defined.

(** ** Byte order *)

Lemma nth_le_bytes (n : nat) (x : Z) (k : nat) :
  (k < n)%nat ->
  nth k (le_bytes n x) x00 = byte_of_Z (Z.shiftr x (8 * Z.of_nat k)).
Proof.
  revert x k. induction n as [|n IH]; intros x k Hk; [lia|].
  destruct k as [|k]; cbn [le_bytes nth].
  - reflexivity.
  - rewrite IH by lia. rewrite Z.shiftr_shiftr by lia.
    f_equal. f_equal. lia.
Qed.

Lemma nth_native_bytes (order : byte_order) (n : nat) (x : Z) (k : nat) :
  (k < n)%nat ->
  nth (byte_position order n k) (native_bytes order n x) x00
  = byte_of_Z (Z.shiftr x (8 * Z.of_nat k)).
Proof.
  intros Hk. destruct order; cbn [byte_position native_bytes].
  - now apply nth_le_bytes.
  - rewrite rev_nth by (rewrite length_le_bytes; lia).
    rewrite length_le_bytes.
    replace (n - S (n - 1 - k))%nat with k by lia.
    now apply nth_le_bytes.
Qed.

(** What a numeric item is packed as: the pattern it stands for, in the
    bytes of the host. *)
Lemma pack_item_native (order : byte_order) (c : fmt_code) (v : pyval) (bs : list byte) :
  c <> Fmt_c ->
  pack_item order c v = Ok bs ->
  exists bits : Z,
    field_bits c v = Ok bits /\ bs = native_bytes order (code_size c) bits.
Proof.
  intros Hc H.
  destruct c; [congruence| | |]; cbn [pack_item field_bits code_size] in *.
  - destruct v as [z| |]; try discriminate.
    destruct (in_int32 z); [|discriminate]. inversion H. now exists z.
  - destruct (as_double v) as [d|]; [|discriminate]. cbn [bind_result] in *.
    inversion H. now eexists.
  - destruct (as_double v) as [d|]; [|discriminate]. cbn [bind_result] in *.
    inversion H. now eexists.
Qed.

(** C5 as stated fails on a big-endian host: the marker 8 is written most
    significant byte first, and read as a little-endian integer it is
    134217728. *)
Lemma big_endian_host_byte_order :
  pack_item BigEndian Fmt_i (PyInt 8) = Ok [x00; x00; x00; x08] /\
  write_dummy BigEndian [8] [] = (Ok tt, [x00; x00; x00; x08]) /\
  le_value [x00; x00; x00; x08] = 134217728 /\
  le_value [x00; x00; x00; x08] <> 8.
Proof.
  repeat split; try reflexivity. vm_compute. discriminate.
Qed.

(** ** [read_configuration_file] *)

Lemma header_typing_no_single_character (key : ascii) :
  dict_get header_typing (String key EmptyString) = Raise KeyError.
Proof.
  destruct key as [[] [] [] [] [] [] [] []]; reflexivity.
Qed.

(** The loop over a header that is not empty never completes: its first
    step unpacks a key, which raises [ValueError] unless the key has two
    characters, and then looks up a one-character key in [header_typing],
    which raises [KeyError]. *)
Lemma coerce_loop_raises (k : string) (keys : list string) (header : table) :
  coerce_loop (k :: keys) header = Raise ValueError
  \/ coerce_loop (k :: keys) header = Raise KeyError.
Proof.
  cbn [coerce_loop].
  destruct (list_ascii_of_string k) as [|key [|value [|c l]]]; try (now left).
  right. rewrite header_typing_no_single_character. reflexivity.
Qed.

Lemma dict_mem_In (V : Type) (d : list (string * V)) (k : string) :
  dict_mem d k = true -> In k (map fst d).
Proof.
  unfold dict_mem. induction d as [|[k' v] d IH]; cbn [dict_find map fst In].
  - discriminate.
  - destruct (String.eqb_spec k' k) as [->|Hne]; [now left|].
    intros H. right. now apply IH.
Qed.

(** C9, on the code. A document without a HEADER section, or whose HEADER
    lacks a required key, is rejected with [SyntaxError]. A document whose
    HEADER has every required key is never coerced: the loop raises
    [ValueError] or [KeyError] at its first step, so the call never
    returns. *)
Theorem read_configuration_file_never_coerces (configuration_data : document) :
  (dict_mem configuration_data "HEADER" = false ->
   read_configuration_file (Loaded configuration_data) = Raise SyntaxError) /\
  (forall header : table,
     dict_find configuration_data "HEADER" = Some header ->
     (exists k, In k (map fst header_typing) /\ dict_mem header k = false) ->
     read_configuration_file (Loaded configuration_data) = Raise SyntaxError) /\
  (forall header : table,
     dict_find configuration_data "HEADER" = Some header ->
     (forall k, In k (map fst header_typing) -> dict_mem header k = true) ->
     read_configuration_file (Loaded configuration_data) = Raise ValueError
     \/ read_configuration_file (Loaded configuration_data) = Raise KeyError).
Proof.
  split; [|split].
  - intros H. cbn [read_configuration_file]. rewrite H. reflexivity.
  - intros header Hh (k & Hk & Hmiss). cbn [read_configuration_file].
    assert (Hmem : dict_mem configuration_data "HEADER" = true)
      by (unfold dict_mem; now rewrite Hh).
    rewrite Hmem. unfold dict_get. rewrite Hh. cbn [negb bind_result].
    destruct (filter (fun i => negb (dict_mem header i)) (map fst header_typing))
      as [|k' l] eqn:E; [|reflexivity].
    exfalso. assert (Hin : In k (@nil string)); [|exact Hin].
    rewrite <- E. apply filter_In. split; [exact Hk|]. now rewrite Hmiss.
  - intros header Hh Hall. cbn [read_configuration_file].
    assert (Hmem : dict_mem configuration_data "HEADER" = true)
      by (unfold dict_mem; now rewrite Hh).
    rewrite Hmem. unfold dict_get. rewrite Hh. cbn [negb bind_result].
    replace (filter (fun i => negb (dict_mem header i)) (map fst header_typing))
      with (@nil string).
    + cbn [length Nat.eqb negb].
      assert (Hne : In "mass_array"%string (map fst header)).
      { apply dict_mem_In. apply Hall. cbn. now left. }
      destruct (map fst header) as [|k keys] eqn:Ek; [contradiction|].
      destruct (coerce_loop_raises k keys header) as [-> | ->]; [left|right]; reflexivity.
    + symmetry.
      destruct (filter (fun i => negb (dict_mem header i)) (map fst header_typing))
        as [|k' l] eqn:E; [reflexivity|].
      exfalso. assert (Hin : In k' (k' :: l)) by now left.
      rewrite <- E in Hin. apply filter_In in Hin as [Hin Hneg].
      rewrite (Hall k' Hin) in Hneg. discriminate.
Qed.

Lemma read_configuration_file_never_coerces_witness :
  dict_find [("HEADER"%string, sample_header)] "HEADER" = Some sample_header /\
  (forall k, In k (map fst header_typing) -> dict_mem sample_header k = true) /\
  read_configuration_file (Loaded [("HEADER"%string, sample_header)]) = Raise ValueError.
Proof.
  assert (Hall : forall k, In k (map fst header_typing) -> dict_mem sample_header k = true).
  { intros k Hk. cbn in Hk.
    repeat (destruct Hk as [<- | Hk]; [reflexivity|]). contradiction. }
  split; [reflexivity|]. split; [exact Hall|].
  destruct (proj2 (proj2 (read_configuration_file_never_coerces
                            [("HEADER"%string, sample_header)]))
              sample_header eq_refl Hall) as [H | H].
  - exact H.
  - vm_compute in H. discriminate H.
Defined.

(** * Further properties *)

(** ** Slices *)

Lemma slice_inside (x l : list byte) (off n : nat) :
  (off + n <= length x)%nat -> slice off n (x ++ l) = slice off n x.
Proof.
  intros H. unfold slice. rewrite skipn_app.
  replace (off - length x)%nat with 0%nat by lia. cbn [skipn].
  rewrite firstn_app, length_skipn.
  replace (n - (length x - off))%nat with 0%nat by lia.
  cbn [firstn]. now rewrite app_nil_r.
Qed.

Lemma slice_flat_map_int (order : byte_order) (zs : list Z) (k : nat) :
  (k < length zs)%nat ->
  slice (4 * k) 4 (flat_map (native_bytes order 4) zs)
  = native_bytes order 4 (nth k zs 0).
Proof.
  revert k. induction zs as [|z zs IH]; intros k Hk; [cbn [length] in Hk; lia|].
  cbn [flat_map]. destruct k as [|k].
  - cbn [Nat.mul nth]. apply slice_here. apply length_native_bytes.
  - rewrite (slice_skip _ _ _ _ 4 (length_native_bytes order 4 z)) by lia.
    replace (4 * S k - 4)%nat with (4 * k)%nat by lia.
    cbn [nth]. apply IH. cbn [length] in Hk. lia.
Qed.

Lemma forallb_nth_int32 (zs : list Z) (k : nat) :
  forallb in_int32 zs = true -> (k < length zs)%nat -> in_int32 (nth k zs 0) = true.
Proof.
  intros H Hk. rewrite forallb_forall in H. apply H. now apply nth_In.
Qed.

(** ** More on [write_dummy] *)

(** X1. Writing the markers of a concatenated list is writing those of
    the first list and then those of the second, whatever the outcome: if
    a value of the first list does not pack, nothing of the second list is
    written. *)
Theorem write_dummy_app (order : byte_order) (v1 v2 : list Z) (f : list byte) :
  write_dummy order (v1 ++ v2) f
  = bind_w (write_dummy order v1) (fun _ => write_dummy order v2) f.
Proof.
  revert f. induction v1 as [|z v1 IH]; intros f; [reflexivity|].
  cbn [app write_dummy]. unfold bind_w at 1 3, lift_w.
  destruct (struct_pack order [Fmt_i] [PyInt z]) as [d|e]; [|reflexivity].
  unfold bind_w at 1 3, f_write. rewrite IH. reflexivity.
Qed.

(** X2. [write_dummy] stops at the first value that does not fit a C
    [int]: it raises [struct.error], the markers of the values before it
    are written, 4 bytes each, and nothing of the values after it. *)
Theorem write_dummy_stops_at_first_bad (order : byte_order) (pre post : list Z)
  (v : Z) (f : list byte) :
  forallb in_int32 pre = true -> in_int32 v = false ->
  write_dummy order (pre ++ v :: post) f
  = (Raise StructError, f ++ flat_map (native_bytes order 4) pre) /\
  length (flat_map (native_bytes order 4) pre) = (4 * length pre)%nat.
Proof.
  intros Hpre Hv. split.
  - revert f. induction pre as [|z pre IH]; intros f.
    + cbn [app write_dummy flat_map]. unfold bind_w, lift_w.
      rewrite struct_pack_int, Hv, app_nil_r. reflexivity.
    + cbn [forallb] in Hpre. apply andb_true_iff in Hpre as [Hz Hpre].
      cbn [app write_dummy flat_map]. unfold bind_w at 1, lift_w.
      rewrite struct_pack_int, Hz. unfold bind_w at 1, f_write.
      rewrite (IH Hpre), <- app_assoc. reflexivity.
  - rewrite (length_flat_map_fixed _ _ 4%nat) by (intros; apply length_native_bytes). lia.
Qed.

Lemma write_dummy_stops_at_first_bad_witness :
  forallb in_int32 [8; 264] = true /\ in_int32 4294967296 = false /\
  write_dummy LittleEndian ([8; 264] ++ 4294967296 :: [8]) []
  = (Raise StructError, [x08; x00; x00; x00; x08; x01; x00; x00]).
Proof.
  split; [reflexivity|]. split; [reflexivity|].
  exact (proj1 (write_dummy_stops_at_first_bad LittleEndian [8; 264] [8] 4294967296 []
                  eq_refl eq_refl)).
Defined.

(** X3. The markers a completed [write_dummy] writes can be read back:
    the file grows by 4 bytes for each value, and the 32-bit integer at
    the place of the value number [k] is that value. *)
Theorem write_dummy_read_back (order : byte_order) (vals : list Z) (f f' : list byte) :
  write_dummy order vals f = (Ok tt, f') ->
  length f' = (length f + 4 * length vals)%nat /\
  forall k, (k < length vals)%nat ->
    int_at order f' (length f + 4 * k) = nth k vals 0.
Proof.
  intros H. apply write_dummy_Ok_inv in H as [Hr ->]. split.
  - rewrite length_app, (length_flat_map_fixed _ _ 4%nat) by (intros; apply length_native_bytes).
    lia.
  - intros k Hk. apply int_at_field; [|now apply forallb_nth_int32].
    rewrite (slice_skip f _ _ _ (length f) eq_refl) by lia.
    replace (length f + 4 * k - length f)%nat with (4 * k)%nat by lia.
    now apply slice_flat_map_int.
Qed.

Lemma write_dummy_read_back_witness :
  write_dummy BigEndian [264; 8; 256] [x2a]
  = (Ok tt, [x2a; x00; x00; x01; x08; x00; x00; x00; x08; x00; x00; x01; x00]) /\
  int_at BigEndian [x2a; x00; x00; x01; x08; x00; x00; x00; x08; x00; x00; x01; x00]
    (1 + 4 * 2) = 256.
Proof.
  split; [reflexivity|].
  apply (proj2 (write_dummy_read_back BigEndian [264; 8; 256] [x2a]
                  [x2a; x00; x00; x01; x08; x00; x00; x00; x08; x00; x00; x01; x00]
                  eq_refl) 2%nat).
  cbn. lia.
Defined.

(** ** More on [write_block] *)

Lemma block_nbytes_nonneg (data : block_data) (data_type : option fmt_code)
  (block_name : string) (nbytes : Z) :
  block_nbytes data data_type block_name = Ok nbytes -> 0 <= nbytes.
Proof.
  unfold block_nbytes. destruct (String.eqb block_name "HEAD").
  - intros H. inversion H. lia.
  - destruct (len data) as [n|]; [|discriminate]. cbn [bind_result].
    destruct data_type; [|discriminate]. intros H. inversion H. lia.
Qed.

(** [write_block] stage by stage, for every input. *)
Lemma write_block_eq (order : byte_order) (data : block_data)
  (data_type : option fmt_code) (block_name : string) (f : list byte) :
  write_block order data data_type block_name f
  = write_block_outcome order data data_type block_name f.
Proof.
  unfold write_block, write_block_outcome.
  unfold bind_w at 1. rewrite write_dummy_Ok by reflexivity.
  cbn [flat_map]. rewrite app_nil_r.
  unfold bind_w at 1, lift_w.
  destruct (struct_pack order (repeat Fmt_c 4) _) as [nm|e]; [|reflexivity].
  unfold bind_w at 1, f_write.
  pose proof (block_nbytes_nonneg data data_type block_name) as Hnn.
  unfold block_nbytes, block_payload in *.
  destruct (String.eqb block_name "HEAD").
  - unfold bind_w at 1, ret_w. cbn [fst snd]. cbn [in_int32].
    unfold bind_w at 1. rewrite write_dummy_Ok by reflexivity.
    change (in_int32 (256 + 8)) with true. cbv iota.
    unfold bind_w at 1.
    destruct data as [bs| |]; unfold f_write, raise_w;
      cbn [flat_map]; rewrite ?app_nil_r, <- ?app_assoc; try reflexivity.
    rewrite write_dummy_Ok by reflexivity.
    cbn [flat_map]. rewrite ?app_nil_r, <- ?app_assoc. reflexivity.
  - unfold bind_w at 1. unfold bind_w at 1. unfold lift_w.
    destruct (len data) as [n|e]; [|reflexivity]. cbn [bind_result].
    destruct data_type as [c|]; [|reflexivity]. unfold ret_w. cbn [fst snd].
    specialize (Hnn _ eq_refl).
    destruct (in_int32 (Z.of_nat n * 4 + 8)) eqn:H8.
    + assert (Hr : in_int32 (Z.of_nat n * 4) = true).
      { apply in_int32_bounds. apply in_int32_bounds in H8. lia. }
      unfold bind_w at 1.
      rewrite write_dummy_Ok by (cbn [forallb]; rewrite H8, Hr; reflexivity).
      unfold bind_w at 1. unfold bind_w at 1. cbn [local ret_w]. unfold ret_w.
      unfold bind_w at 1.
      destruct (unpack_args data) as [args|e]; cbn [bind_result]; 
        [|cbn [flat_map]; rewrite ?app_nil_r, <- ?app_assoc; reflexivity].
      unfold bind_w at 1.
      destruct (struct_pack order (repeat c n) args) as [payload|e];
        [|cbn [flat_map]; rewrite ?app_nil_r, <- ?app_assoc; reflexivity].
      rewrite write_dummy_Ok by (cbn [forallb]; rewrite Hr; reflexivity).
      cbn [flat_map]. rewrite ?app_nil_r, <- ?app_assoc. reflexivity.
    + unfold bind_w at 1. cbn [write_dummy]. unfold bind_w at 1, lift_w.
      rewrite struct_pack_int, H8. reflexivity.
Qed.

Lemma utf8_encode_single_ascii (ch : ascii) (b : byte) :
  utf8_encode ch = [b] -> (N_of_ascii ch < 128)%N.
Proof.
  destruct ch as [[] [] [] [] [] [] [] []]; vm_compute; intros H;
    solve [discriminate H | reflexivity].
Qed.

Lemma pack_each_ascii_inv (order : byte_order) (chars : list ascii) (nm : list byte) :
  pack_each order Fmt_c (map (fun ch => PyBytes (utf8_encode ch)) chars) = Ok nm ->
  Forall (fun ch => (N_of_ascii ch < 128)%N) chars.
Proof.
  revert nm. induction chars as [|ch chars IH]; intros nm H; [constructor|].
  cbn [map pack_each] in H.
  apply bind_result_Ok_inv in H as (item & Hitem & H).
  apply bind_result_Ok_inv in H as (tl & Htl & _).
  constructor; [|now apply (IH tl)].
  cbn [pack_item] in Hitem.
  destruct (utf8_encode ch) as [|b [|b' l]] eqn:E; try discriminate.
  now apply (utf8_encode_single_ascii ch b).
Qed.

Lemma pack_each_char_error (order : byte_order) (vals : list pyval) (e : exn) :
  pack_each order Fmt_c vals = Raise e -> e = StructError.
Proof.
  induction vals as [|v vals IH]; [discriminate|].
  cbn [pack_each pack_item].
  destruct v as [z|x|[|b [|b' l]]]; cbn [bind_result];
    try (intros H; inversion H; reflexivity).
  destruct (pack_each order Fmt_c vals) as [tl|e']; cbn [bind_result].
  - discriminate.
  - intros H. inversion H; subst e'. now apply IH.
Qed.

(** The name packs exactly when it is made of four ASCII characters; the
    only error is [struct.error]. *)
Lemma pack_name_not_ascii (order : byte_order) (block_name : string) :
  ~ ascii_name block_name ->
  struct_pack order (repeat Fmt_c 4)
    (map (fun ch => PyBytes (utf8_encode ch)) (list_ascii_of_string block_name))
  = Raise StructError.
Proof.
  intros Hname. rewrite struct_pack_repeat, length_map.
  destruct (Nat.eqb_spec 4 (length (list_ascii_of_string block_name))) as [Hlen|];
    [|reflexivity].
  destruct (pack_each order Fmt_c _) as [nm|e] eqn:E.
  - exfalso. apply Hname. split; [now symmetry|]. now apply (pack_each_ascii_inv order _ nm).
  - now rewrite (pack_each_char_error order _ e E).
Qed.

(** X4. A block name that is not made of exactly four ASCII characters
    makes [write_block] raise [struct.error] after the opening marker 8
    has been written: the file is left with 4 stray bytes. *)
Theorem write_block_bad_name (order : byte_order) (data : block_data)
  (data_type : option fmt_code) (block_name : string) (f : list byte) :
  ~ ascii_name block_name ->
  write_block order data data_type block_name f
  = (Raise StructError, f ++ native_bytes order 4 8).
Proof.
  intros Hname. rewrite write_block_eq. unfold write_block_outcome.
  now rewrite (pack_name_not_ascii order block_name Hname).
Qed.

Lemma write_block_bad_name_witness :
  ~ ascii_name "ID" /\
  write_block LittleEndian sample_ids (Some Fmt_i) "ID" []
  = (Raise StructError, [x08; x00; x00; x00]).
Proof.
  assert (H : ~ ascii_name "ID") by (intros [Hlen _]; discriminate Hlen).
  split; [exact H|].
  exact (write_block_bad_name LittleEndian sample_ids (Some Fmt_i) "ID" [] H).
Defined.

(** X5. A block other than HEAD written without a data type raises
    [TypeError] once the opening marker and the name are in the file: 8
    bytes and no size marker. *)
Theorem write_block_without_data_type (order : byte_order) (data : block_data)
  (block_name : string) (f : list byte) :
  ascii_name block_name -> block_name <> "HEAD"%string ->
  write_block order data None block_name f
  = (Raise TypeError, f ++ native_bytes order 4 8 ++ name_bytes block_name).
Proof.
  intros Hname Hne. apply String.eqb_neq in Hne.
  rewrite write_block_eq. unfold write_block_outcome.
  rewrite (pack_name_Ok order block_name Hname). unfold block_nbytes. rewrite Hne.
  rewrite <- app_assoc. destruct data; reflexivity.
Qed.

Lemma write_block_without_data_type_witness :
  ascii_name "POS " /\ "POS "%string <> "HEAD"%string /\
  write_block LittleEndian sample_floats None "POS " []
  = (Raise TypeError, [x08; x00; x00; x00; x50; x4f; x53; x20]).
Proof.
  assert (H1 : ascii_name "POS ") by (split; [reflexivity | repeat constructor]).
  assert (H2 : "POS "%string <> "HEAD"%string) by discriminate.
  split; [exact H1|]. split; [exact H2|].
  exact (write_block_without_data_type LittleEndian sample_floats "POS " [] H1 H2).
Defined.

(** X6. An element that does not pack with the data type of its block
    (a float in an integer block, say) makes [write_block] raise the error
    of [struct.pack] after the 20 bytes that precede the payload: the file
    is left with the head of a block, a size and no data. *)
Theorem write_block_unpackable (order : byte_order) (data : block_data) (c : fmt_code)
  (block_name : string) (f : list byte) (n : nat) (args : list pyval) (e : exn) :
  ascii_name block_name -> block_name <> "HEAD"%string ->
  len data = Ok n -> unpack_args data = Ok args ->
  in_int32 (Z.of_nat n * 4 + 8) = true ->
  struct_pack order (repeat c n) args = Raise e ->
  write_block order data (Some c) block_name f
  = (Raise e, f ++ block_head order block_name n) /\
  length (block_head order block_name n) = 20%nat.
Proof.
  intros Hname Hne Hlen Hargs H8 Hpack. apply String.eqb_neq in Hne. split.
  - rewrite write_block_eq. unfold write_block_outcome.
    rewrite (pack_name_Ok order block_name Hname).
    unfold block_nbytes, block_payload. rewrite Hne, Hlen. cbn [bind_result].
    rewrite H8, Hargs. cbn [bind_result]. rewrite Hpack.
    unfold block_head. now rewrite <- !app_assoc.
  - unfold block_head. destruct Hname as [Hl _].
    rewrite !length_app, !length_native_bytes. unfold name_bytes.
    rewrite length_map, Hl. reflexivity.
Qed.

Lemma write_block_unpackable_witness :
  ascii_name "ID  " /\ "ID  "%string <> "HEAD"%string /\
  write_block LittleEndian sample_gas (Some Fmt_i) "ID  " []
  = (Raise StructError,
     [x08; x00; x00; x00; x49; x44; x20; x20; x0c; x00; x00; x00;
      x08; x00; x00; x00; x04; x00; x00; x00]).
Proof.
  assert (H1 : ascii_name "ID  ") by (split; [reflexivity | repeat constructor]).
  assert (H2 : "ID  "%string <> "HEAD"%string) by discriminate.
  split; [exact H1|]. split; [exact H2|].
  exact (proj1 (write_block_unpackable LittleEndian sample_gas Fmt_i "ID  " [] 1
                  [PyFloat float_one] StructError H1 H2 eq_refl eq_refl eq_refl eq_refl)).
Defined.

(** X7. [write_block] completes exactly when the name is made of four
    ASCII characters, the size of the block is known, the payload packs,
    and the size with the two 4-byte markers fits a C [int]. *)
Theorem write_block_completes_iff (order : byte_order) (data : block_data)
  (data_type : option fmt_code) (block_name : string) (f : list byte) :
  fst (write_block order data data_type block_name f) = Ok tt <->
  ascii_name block_name /\
  exists (nbytes : Z) (payload : list byte),
    block_nbytes data data_type block_name = Ok nbytes /\
    block_payload order data data_type block_name = Ok payload /\
    in_int32 (nbytes + 8) = true.
Proof.
  split.
  - intros H. destruct (write_block order data data_type block_name f) as [r f'] eqn:E.
    cbn [fst] in H. subst r.
    pose proof E as E'. rewrite write_block_eq in E'. unfold write_block_outcome in E'.
    destruct (struct_pack order (repeat Fmt_c 4) _) as [nm|e] eqn:Hnm; [|discriminate].
    split.
    + rewrite struct_pack_repeat, length_map in Hnm.
      destruct (Nat.eqb_spec 4 (length (list_ascii_of_string block_name))) as [Hl|];
        [|discriminate].
      split; [now symmetry|]. now apply (pack_each_ascii_inv order _ nm).
    + apply write_block_Ok_inv in E as (nbytes & payload & Hn & Hp & _ & H8 & _ & _).
      now exists nbytes, payload.
  - intros (Hname & nbytes & payload & Hn & Hp & H8).
    now rewrite (write_block_Ok order data data_type block_name f nbytes payload Hname Hn Hp H8).
Qed.

(** X8. [write_block] only appends, and what it appends and whether it
    raises do not depend on what the file already holds: the outcome on a
    file [f] is the outcome on an empty file, after [f]. *)
Theorem write_block_position_independent (order : byte_order) (data : block_data)
  (data_type : option fmt_code) (block_name : string) (f : list byte) :
  write_block order data data_type block_name f
  = (fst (write_block order data data_type block_name []),
     f ++ snd (write_block order data data_type block_name [])).
Proof.
  rewrite !write_block_eq. unfold write_block_outcome. cbv zeta.
  destruct (struct_pack order (repeat Fmt_c 4) _) as [nm|e]; [|reflexivity].
  destruct (block_nbytes data data_type block_name) as [nbytes|e];
    [|cbn [fst snd app]; now rewrite <- app_assoc].
  destruct (in_int32 (nbytes + 8)); [|cbn [fst snd app]; now rewrite <- app_assoc].
  destruct (block_payload order data data_type block_name) as [payload|e];
    cbn [fst snd app]; now rewrite <- !app_assoc.
Qed.

(** X9. The size markers are C [int]s, so an array of 536870910 elements
    or more (4 bytes each, and 8 bytes for the markers, pass 2^31 - 1)
    cannot be written: [write_block] raises [struct.error] once the
    opening marker and the name are in the file. *)
Theorem write_block_size_limit (order : byte_order) (data : block_data) (c : fmt_code)
  (block_name : string) (f : list byte) (n : nat) :
  ascii_name block_name -> block_name <> "HEAD"%string ->
  len data = Ok n -> 536870910 <= Z.of_nat n ->
  write_block order data (Some c) block_name f
  = (Raise StructError, f ++ native_bytes order 4 8 ++ name_bytes block_name).
Proof.
  intros Hname Hne Hlen Hn. apply String.eqb_neq in Hne.
  rewrite write_block_eq. unfold write_block_outcome.
  rewrite (pack_name_Ok order block_name Hname).
  unfold block_nbytes. rewrite Hne, Hlen. cbn [bind_result].
  replace (in_int32 (Z.of_nat n * 4 + 8)) with false.
  - now rewrite <- app_assoc.
  - symmetry. destruct (in_int32 (Z.of_nat n * 4 + 8)) eqn:E; [|reflexivity].
    apply in_int32_bounds in E. lia.
Qed.

Lemma write_block_size_limit_witness :
  ascii_name "POS " /\ "POS "%string <> "HEAD"%string /\
  len (DataArray (repeat (PyInt 0) (Z.to_nat 536870910))) = Ok (Z.to_nat 536870910) /\
  536870910 <= Z.of_nat (Z.to_nat 536870910) /\
  write_block LittleEndian (DataArray (repeat (PyInt 0) (Z.to_nat 536870910)))
    (Some Fmt_f) "POS " []
  = (Raise StructError, [] ++ native_bytes LittleEndian 4 8 ++ name_bytes "POS ").
Proof.
  assert (H1 : ascii_name "POS ") by (split; [reflexivity | repeat constructor]).
  assert (H2 : "POS "%string <> "HEAD"%string) by discriminate.
  assert (H3 : len (DataArray (repeat (PyInt 0) (Z.to_nat 536870910)))
               = Ok (Z.to_nat 536870910))
    by (cbn [len]; now rewrite repeat_length).
  assert (H4 : 536870910 <= Z.of_nat (Z.to_nat 536870910)) by lia.
  split; [exact H1|]. split; [exact H2|]. split; [exact H3|]. split; [exact H4|].
  exact (write_block_size_limit LittleEndian _ Fmt_f "POS " [] _ H1 H2 H3 H4).
Defined.

(** The payload of a block of integers. *)
Lemma block_payload_ints (order : byte_order) (zs : list Z) (block_name : string)
  (payload : list byte) :
  String.eqb block_name "HEAD" = false ->
  block_payload order (DataArray (map PyInt zs)) (Some Fmt_i) block_name = Ok payload ->
  payload = flat_map (native_bytes order 4) zs /\ forallb in_int32 zs = true.
Proof.
  intros Hne Hp. unfold block_payload in Hp. rewrite Hne in Hp.
  cbn [len unpack_args bind_result] in Hp.
  rewrite struct_pack_repeat, Nat.eqb_refl, pack_each_ints in Hp.
  destruct (forallb in_int32 zs); [|discriminate Hp].
  inversion Hp. split; reflexivity.
Qed.

(** The item number [k] of a block of integers that starts where [f]
    ends. *)
Lemma slice_block_item (order : byte_order) (f nm tail : list byte) (m1 m2 m3 m4 : Z)
  (zs : list Z) (k : nat) :
  length nm = 4%nat -> (k < length zs)%nat ->
  slice (length f + 20 + 4 * k) 4
    (f ++ native_bytes order 4 m1 ++ nm ++ native_bytes order 4 m2
       ++ native_bytes order 4 m3 ++ native_bytes order 4 m4
       ++ flat_map (native_bytes order 4) zs ++ tail)
  = native_bytes order 4 (nth k zs 0).
Proof.
  intros Hname Hk.
  assert (Hpl : length (flat_map (native_bytes order 4) zs) = (4 * length zs)%nat).
  { rewrite (length_flat_map_fixed _ _ 4%nat) by (intros; apply length_native_bytes). lia. }
  rewrite (slice_skip f _ _ _ (length f) eq_refl) by lia.
  rewrite (slice_skip _ _ _ _ 4 (length_native_bytes order 4 m1)) by lia.
  rewrite (slice_skip _ _ _ _ 4 Hname) by lia.
  rewrite (slice_skip _ _ _ _ 4 (length_native_bytes order 4 m2)) by lia.
  rewrite (slice_skip _ _ _ _ 4 (length_native_bytes order 4 m3)) by lia.
  rewrite (slice_skip _ _ _ _ 4 (length_native_bytes order 4 m4)) by lia.
  replace (length f + 20 + 4 * k - length f - 4 - 4 - 4 - 4 - 4)%nat
    with (4 * k)%nat by lia.
  rewrite slice_inside by lia.
  now apply slice_flat_map_int.
Qed.

(** X10. The identifiers of a completed integer block can be read back: the
    block takes 24 bytes and 4 bytes for each identifier, and the 32-bit
    integer at byte [20 + 4k] of the block is the identifier number [k]. *)
Theorem write_block_ints_read_back (order : byte_order) (zs : list Z)
  (block_name : string) (f f' : list byte) :
  block_name <> "HEAD"%string ->
  write_block order (DataArray (map PyInt zs)) (Some Fmt_i) block_name f = (Ok tt, f') ->
  length f' = (length f + 24 + 4 * length zs)%nat /\
  forall k, (k < length zs)%nat ->
    int_at order f' (length f + 20 + 4 * k) = nth k zs 0.
Proof.
  intros Hne H. apply String.eqb_neq in Hne.
  apply write_block_Ok_inv in H as (nbytes & payload & _ & Hp & Hname & _ & _ & ->).
  apply block_payload_ints in Hp as [-> Hr]; [|exact Hne].
  split.
  - rewrite !length_app, !length_native_bytes, Hname.
    rewrite (length_flat_map_fixed _ _ 4%nat) by (intros; apply length_native_bytes). lia.
  - intros k Hk. apply int_at_field; [|now apply forallb_nth_int32].
    now apply slice_block_item.
Qed.

Lemma write_block_ints_read_back_witness :
  "ID  "%string <> "HEAD"%string /\
  write_block LittleEndian (DataArray (map PyInt [1; 2])) (Some Fmt_i) "ID  " []
  = (Ok tt, sample_id_block) /\
  int_at LittleEndian sample_id_block (0 + 20 + 4 * 1) = 2.
Proof.
  assert (H1 : "ID  "%string <> "HEAD"%string) by discriminate.
  assert (H2 : write_block LittleEndian (DataArray (map PyInt [1; 2])) (Some Fmt_i) "ID  " []
               = (Ok tt, sample_id_block)) by (vm_compute; reflexivity).
  split; [exact H1|]. split; [exact H2|].
  apply (proj2 (write_block_ints_read_back LittleEndian [1; 2] "ID  " [] sample_id_block
                  H1 H2) 1%nat).
  cbn. lia.
Defined.

(** ** Writers only append *)

Lemma appends_ret (A : Type) (a : A) : appends (ret_w a).
Proof. intros f. exists []. cbn. now rewrite app_nil_r. Qed.

Lemma appends_raise (A : Type) (e : exn) : appends (@raise_w A e).
Proof. intros f. exists []. cbn. now rewrite app_nil_r. Qed.

Lemma appends_local (A : Type) (v : option A) : appends (local v).
Proof. destruct v; [apply appends_ret | apply appends_raise]. Qed.

Lemma appends_bind (A B : Type) (m : writer A) (k : A -> writer B) :
  appends m -> (forall a, appends (k a)) -> appends (bind_w m k).
Proof.
  intros Hm Hk f. unfold bind_w. destruct (Hm f) as (a1 & H1).
  destruct (m f) as [[a|e] f1]; cbn [snd] in *; subst f1.
  - destruct (Hk a (f ++ a1)) as (a2 & H2). exists (a1 ++ a2).
    now rewrite H2, app_assoc.
  - now exists a1.
Qed.

Lemma appends_write_block (order : byte_order) (data : block_data)
  (data_type : option fmt_code) (block_name : string) :
  appends (write_block order data data_type block_name).
Proof.
  intros f. rewrite write_block_eq. unfold write_block_outcome.
  destruct (struct_pack order (repeat Fmt_c 4) _) as [nm|e]; [|now eexists].
  destruct (block_nbytes data data_type block_name) as [nbytes|e];
    [|cbn [snd]; rewrite <- app_assoc; now eexists].
  destruct (in_int32 (nbytes + 8)); [|cbn [snd]; rewrite <- app_assoc; now eexists].
  destruct (block_payload order data data_type block_name) as [payload|e];
    cbn [snd]; rewrite <- ?app_assoc; now eexists.
Qed.

(** ** [read_header], completely *)

(** X11. [read_header] is decided by the number of counts and their
    range: it returns the 256-byte layout when there are six counts that
    all fit a C [int], and raises [struct.error], never anything else, in
    every other case. *)
Theorem read_header_decided (order : byte_order) (n_part : list Z) :
  read_header order n_part
  = if Nat.eqb (length n_part) 6 && forallb in_int32 n_part
    then Ok (header_layout order n_part)
    else Raise StructError.
Proof.
  destruct (Nat.eqb_spec (length n_part) 6) as [Hlen|Hlen]; cbn [andb].
  - apply read_header_six. exact Hlen.
  - apply read_header_wrong_length. exact Hlen.
Qed.

Lemma header_layout_count (order : byte_order) (n_part : list Z) (k : nat) :
  (k < length n_part)%nat ->
  slice (4 * k) 4 (header_layout order n_part)
  = native_bytes order 4 (nth k n_part 0).
Proof.
  intros Hk. unfold header_layout. rewrite slice_inside.
  - now apply slice_flat_map_int.
  - rewrite (length_flat_map_fixed _ _ 4%nat) by (intros; apply length_native_bytes). lia.
Qed.

Lemma native_bytes_int_inj (order : byte_order) (x y : Z) :
  in_int32 x = true -> in_int32 y = true ->
  native_bytes order 4 x = native_bytes order 4 y -> x = y.
Proof.
  intros Hx Hy H.
  rewrite <- (signed32_mod x Hx), <- (signed32_mod y Hy).
  change 4294967296 with (2 ^ (8 * Z.of_nat 4)).
  rewrite <- !(native_value_native_bytes order). now rewrite H.
Qed.

(** X12. The header determines the counts: two count sequences that
    [read_header] packs to the same bytes are equal. *)
Theorem read_header_injective (order : byte_order) (n1 n2 : list Z) (hdr : list byte) :
  read_header order n1 = Ok hdr -> read_header order n2 = Ok hdr -> n1 = n2.
Proof.
  intros H1 H2.
  apply read_header_Ok_inv in H1 as (L1 & R1 & E1).
  apply read_header_Ok_inv in H2 as (L2 & R2 & E2).
  apply (nth_ext n1 n2 0 0); [congruence|]. intros k Hk.
  apply (native_bytes_int_inj order).
  - now apply forallb_nth_int32.
  - apply forallb_nth_int32; [exact R2 | congruence].
  - rewrite <- (header_layout_count order n1 k Hk).
    rewrite <- (header_layout_count order n2 k) by congruence.
    congruence.
Qed.

Lemma read_header_injective_witness :
  read_header LittleEndian [100; 50; 0; 0; 0; 0]
  = Ok (header_layout LittleEndian [100; 50; 0; 0; 0; 0]) /\
  [100; 50; 0; 0; 0; 0] = [100; 50; 0; 0; 0; 0].
Proof.
  assert (H : read_header LittleEndian [100; 50; 0; 0; 0; 0]
              = Ok (header_layout LittleEndian [100; 50; 0; 0; 0; 0]))
    by (vm_compute; reflexivity).
  split; [exact H|].
  exact (read_header_injective LittleEndian _ _ _ H H).
Defined.

(** ** More on [write_snapshot] *)

Lemma write_block_head (order : byte_order) (hdr f : list byte) :
  write_block order (DataBytes hdr) None "HEAD" f = (Ok tt, f ++ head_block order hdr).
Proof.
  apply (write_block_Ok order (DataBytes hdr) None "HEAD" f 256 hdr);
    [split; [reflexivity | repeat constructor] | reflexivity | reflexivity | reflexivity].
Qed.

Ltac solve_appends :=
  repeat (cbv beta iota;
          match goal with
          | |- appends (write_block _ _ _ _) => apply appends_write_block
          | |- appends (local _) => apply appends_local
          | |- appends (ret_w _) => apply appends_ret
          | |- appends (bind_w _ _) => apply appends_bind; [|intros]
          | |- appends (if ?b then _ else _) => destruct b
          end).

(** A file exists only when every check has passed, and then it begins
    with the HEAD block. *)
Lemma write_snapshot_opened_inv (order : byte_order) (n_part : list Z)
  (data_list : list block_data) (file_format : string) (file : list byte) :
  snd (write_snapshot order n_part data_list file_format) = Some file ->
  length n_part = 6%nat /\
  forallb in_int32 n_part = true /\
  file_format = "gadget2"%string /\
  (4 <= length data_list)%nat /\
  (0 < nth 0 n_part 0 -> (7 <= length data_list)%nat) /\
  (exists tail, file = head_block order (header_layout order n_part) ++ tail).
Proof.
  intros H. unfold write_snapshot in H.
  destruct (read_header order n_part) as [hdr|e] eqn:Hh.
  2:{ destruct (write_snapshot_not_opened order n_part data_list file_format) as (e' & He').
      - right. now exists e.
      - unfold write_snapshot in He'. rewrite Hh in He'. rewrite He' in H. discriminate H. }
  destruct (String.eqb_spec file_format "gadget2") as [->|Hfmt].
  2:{ destruct (write_snapshot_not_opened order n_part data_list file_format) as (e' & He').
      - left. now apply String.eqb_neq.
      - unfold write_snapshot in He'. rewrite Hh in He'.
        apply String.eqb_neq in Hfmt. rewrite Hfmt in He'.
        rewrite He' in H. discriminate H. }
  apply read_header_Ok_inv in Hh as (Hlen & Hr & Ehdr).
  destruct n_part as [|N_gas rest]; [discriminate Hlen|].
  destruct data_list as [|pos [|vel [|ids [|mass gas]]]];
    cbn [py_index nth_error bind_result snd] in H;
    [discriminate H | discriminate H | discriminate H | discriminate H |].
  assert (Hfile : (0 < N_gas -> (7 <= length (pos :: vel :: ids :: mass :: gas))%nat) /\
                  exists tail, file = head_block order hdr ++ tail).
  { destruct (Z_data_bound (pos :: vel :: ids :: mass :: gas)) as (zd & Hzd).
    destruct (Z.ltb_spec 0 N_gas) as [Hgas|Hgas].
    - destruct gas as [|U [|rho [|sm more]]];
        cbn [py_index nth_error bind_result snd] in H;
        [discriminate H | discriminate H | discriminate H |].
      split; [intros _; cbn [length]; lia|].
      rewrite Hzd in H. cbn [bind_result] in H.
      match type of H with
      | snd (let (_, _) := bind_w _ ?k [] in _) = _ =>
          assert (Hk : appends (k tt)) by solve_appends;
          unfold bind_w at 1 in H; rewrite write_block_head in H;
          destruct (Hk ([] ++ head_block order hdr)) as (a & Ha);
          destruct (k tt ([] ++ head_block order hdr)) as [r f]
      end.
      cbn [snd app] in *. inversion H; subst. now exists a.
    - split; [lia|].
      rewrite Hzd in H. cbn [bind_result] in H.
      match type of H with
      | snd (let (_, _) := bind_w _ ?k [] in _) = _ =>
          assert (Hk : appends (k tt)) by solve_appends;
          unfold bind_w at 1 in H; rewrite write_block_head in H;
          destruct (Hk ([] ++ head_block order hdr)) as (a & Ha);
          destruct (k tt ([] ++ head_block order hdr)) as [r f]
      end.
      cbn [snd app] in *. inversion H; subst. now exists a. }
  clear H. destruct Hfile as (H7 & tail & ->). subst hdr.
  split; [exact Hlen|]. split; [exact Hr|]. split; [reflexivity|].
  split; [cbn [length]; lia|]. split; [exact H7|]. now exists tail.
Qed.

(** X13. The file is opened only after every check has passed (a count
    sequence of six that fit a C [int], the format gadget2, the four
    arrays and, for a positive gas count, the three gas arrays), and from
    then on it begins with the whole HEAD block, whether the call
    completes or raises part-way: the counts stand at bytes 20 to 43 of
    any file the call leaves. *)
Theorem write_snapshot_opened (order : byte_order) (n_part : list Z)
  (data_list : list block_data) (file_format : string) (file : list byte) :
  snd (write_snapshot order n_part data_list file_format) = Some file ->
  length n_part = 6%nat /\
  forallb in_int32 n_part = true /\
  file_format = "gadget2"%string /\
  (4 <= length data_list)%nat /\
  (0 < nth 0 n_part 0 -> (7 <= length data_list)%nat) /\
  (exists tail, file = head_block order (header_layout order n_part) ++ tail) /\
  (forall k, (k < 6)%nat -> int_at order file (20 + 4 * k) = nth k n_part 0).
Proof.
  intros H.
  destruct (write_snapshot_opened_inv order n_part data_list file_format file H)
    as (Hlen & Hr & Hfmt & H4 & H7 & tail & ->).
  split; [exact Hlen|]. split; [exact Hr|]. split; [exact Hfmt|].
  split; [exact H4|]. split; [exact H7|]. split; [now exists tail|].
  intros k Hk. apply int_at_field; [|apply forallb_nth_int32; [exact Hr | lia]].
  unfold head_block. rewrite <- !app_assoc.
  rewrite (slice_skip _ _ _ _ 4 (length_native_bytes order 4 8)) by lia.
  rewrite (slice_skip _ _ _ _ 4 (eq_refl : length (name_bytes "HEAD") = 4%nat)) by lia.
  rewrite (slice_skip _ _ _ _ 4 (length_native_bytes order 4 _)) by lia.
  rewrite (slice_skip _ _ _ _ 4 (length_native_bytes order 4 8)) by lia.
  rewrite (slice_skip _ _ _ _ 4 (length_native_bytes order 4 _)) by lia.
  replace (20 + 4 * k - 4 - 4 - 4 - 4 - 4)%nat with (4 * k)%nat by lia.
  rewrite slice_inside by (rewrite length_header_layout; lia).
  apply header_layout_count. lia.
Qed.

Lemma write_snapshot_opened_witness :
  exists file,
    write_snapshot LittleEndian [0; 2; 0; 0; 0; 0]
      [sample_floats; sample_floats; sample_gas; sample_floats] "gadget2"
    = (Raise StructError, Some file) /\
    int_at LittleEndian file (20 + 4 * 1) = 2.
Proof.
  eexists. split; [vm_compute; reflexivity|].
  match goal with
  | |- int_at _ ?file _ = _ =>
      exact (proj2 (proj2 (proj2 (proj2 (proj2 (proj2
               (write_snapshot_opened LittleEndian [0; 2; 0; 0; 0; 0]
                  [sample_floats; sample_floats; sample_gas; sample_floats] "gadget2" file
                  ltac:(vm_compute; reflexivity)))))))
               1%nat ltac:(lia))
  end.
Defined.

(** ** Calls of [write_snapshot] that complete *)

Lemma length_head_block (order : byte_order) (hdr : list byte) :
  length hdr = 256%nat -> length (head_block order hdr) = 280%nat.
Proof.
  intros H. unfold head_block. rewrite !length_app, !length_native_bytes, H. reflexivity.
Qed.

(** A completed block of 4-byte items: the array was writable, and the
    file has grown by the size of its block. *)
Lemma write_block_Ok_size (order : byte_order) (data : block_data) (c : fmt_code)
  (block_name : string) (f f' : list byte) (u : unit) :
  write_block order data (Some c) block_name f = (Ok u, f') ->
  String.eqb block_name "HEAD" = false -> code_size c = 4%nat ->
  writable order data c /\ length f' = (length f + block_size data)%nat.
Proof.
  intros H Hne Hc.
  apply write_block_Ok_inv in H as (nbytes & payload & Hn & Hp & Hname & H8 & Hr & ->).
  unfold block_nbytes in Hn. rewrite Hne in Hn.
  destruct (len data) as [n|] eqn:Hlen; [|discriminate Hn].
  cbn [bind_result] in Hn. inversion Hn; subst nbytes. split.
  - unfold block_payload in Hp. rewrite Hne, Hlen in Hp. cbn [bind_result] in Hp.
    destruct (unpack_args data) as [args|] eqn:Hargs; [|discriminate Hp].
    cbn [bind_result] in Hp. now exists n, args, payload.
  - pose proof (block_payload_length order data c block_name payload n Hne Hp Hlen) as Hl.
    unfold block_size. rewrite Hlen, !length_app, !length_native_bytes, Hname, Hl, Hc. lia.
Qed.

(** The file is opened or not; when it is not, the call has raised. *)
Lemma write_snapshot_outcome (order : byte_order) (n_part : list Z)
  (data_list : list block_data) (file_format : string) :
  (exists e, write_snapshot order n_part data_list file_format = (Raise e, None))
  \/ (exists r file, write_snapshot order n_part data_list file_format = (r, Some file)).
Proof.
  unfold write_snapshot.
  match goal with
  | |- context [match ?s with Ok _ => _ | Raise _ => _ end] =>
      destruct s as [body|e];
        [ destruct (body []) as [r f]; right; now exists r, f
        | left; now exists e ]
  end.
Qed.

Ltac size_step H :=
  let u := fresh "u" in let f1 := fresh "f" in let Hb := fresh "Hb" in
  let Hw := fresh "Hw" in let Hs := fresh "Hs" in
  apply bind_w_Ok_inv in H as (u & f1 & Hb & H);
  apply write_block_Ok_size in Hb as (Hw & Hs); [|reflexivity|reflexivity].

Ltac last_size_step H :=
  let Hw := fresh "Hw" in let Hs := fresh "Hs" in
  apply write_block_Ok_size in H as (Hw & Hs); [|reflexivity|reflexivity].

(** What a completed call has checked and written. *)
Lemma write_snapshot_Ok_inv (order : byte_order) (n_part : list Z)
  (data_list : list block_data) (file_format : string) :
  fst (write_snapshot order n_part data_list file_format) = Ok tt ->
  length n_part = 6%nat /\ forallb in_int32 n_part = true /\
  file_format = "gadget2"%string /\
  well_formed_data order (nth 0 n_part 0) data_list /\
  exists file,
    snd (write_snapshot order n_part data_list file_format) = Some file /\
    length file = snapshot_size (nth 0 n_part 0) data_list.
Proof.
  intros H.
  destruct (String.eqb_spec file_format "gadget2") as [->|Hfmt].
  2:{ destruct (write_snapshot_not_opened order n_part data_list file_format) as (e' & He').
      - left. now apply String.eqb_neq.
      - rewrite He' in H. discriminate H. }
  destruct (read_header order n_part) as [hdr|e] eqn:Hh.
  2:{ destruct (write_snapshot_not_opened order n_part data_list "gadget2") as (e' & He').
      - right. now exists e.
      - rewrite He' in H. discriminate H. }
  pose proof (read_header_Ok_inv order n_part hdr Hh) as (Hlen & Hr & Ehdr).
  assert (Hhdr : length hdr = 256%nat)
    by (rewrite Ehdr, length_header_layout, Hlen; reflexivity).
  clear Ehdr.
  split; [exact Hlen|]. split; [exact Hr|]. split; [reflexivity|].
  destruct (write_snapshot_outcome order n_part data_list "gadget2")
    as [(e & E) | (r & file & E)]; rewrite E in H |- *; [discriminate H|].
  cbn [fst snd] in H |- *. subst r.
  unfold write_snapshot in E. rewrite Hh in E.
  destruct n_part as [|N_gas rest]; [discriminate Hlen|]. cbn [nth].
  destruct data_list as [|pos [|vel [|ids [|mass gas]]]];
    cbn [py_index nth_error bind_result] in E;
    [discriminate E | discriminate E | discriminate E | discriminate E |].
  unfold snapshot_size, written_arrays, well_formed_data.
  destruct (0 <? N_gas) eqn:Hgas.
  - destruct gas as [|U [|rho [|sm [|zd more]]]];
      cbn [py_index nth_error bind_result length Nat.ltb Nat.leb
           String.eqb Ascii.eqb Bool.eqb] in E;
      [discriminate E | discriminate E | discriminate E | |].
    + destruct (bind_w _ _ []) as [r f] eqn:Hb in E. inversion E; subst r f. clear E.
      apply bind_w_Ok_inv in Hb as (u0 & f0 & Hb0 & Hb).
      rewrite write_block_head in Hb0. inversion Hb0; subst f0. clear Hb0.
      cbn [app] in Hb.
      size_step Hb. size_step Hb. size_step Hb. size_step Hb.
      local_step Hb. size_step Hb.
      apply bind_w_Ok_inv in Hb as (uz & fz & Hz & Hb).
      unfold ret_w in Hz. inversion Hz; subst fz; clear Hz.
      local_step Hb. size_step Hb.
      local_step Hb. last_size_step Hb.
      split.
      * exists pos, vel, ids, mass, [U; rho; sm]. repeat (split; [assumption || reflexivity|]).
        intros _. exists U, rho, sm, []. repeat (split; [assumption || reflexivity|]).
        intros zd more' Hd. discriminate Hd.
      * exists file. split; [reflexivity|].
        rewrite (length_head_block order hdr Hhdr) in *.
        cbn [firstn skipn app map list_sum fold_right]. lia.
    + destruct (bind_w _ _ []) as [r f] eqn:Hb in E. inversion E; subst r f. clear E.
      apply bind_w_Ok_inv in Hb as (u0 & f0 & Hb0 & Hb).
      rewrite write_block_head in Hb0. inversion Hb0; subst f0. clear Hb0.
      cbn [app] in Hb.
      size_step Hb. size_step Hb. size_step Hb. size_step Hb.
      local_step Hb. size_step Hb.
      size_step Hb.
      local_step Hb. size_step Hb.
      local_step Hb. last_size_step Hb.
      split.
      * exists pos, vel, ids, mass, (U :: rho :: sm :: zd :: more).
        repeat (split; [assumption || reflexivity|]).
        intros _. exists U, rho, sm, (zd :: more).
        repeat (split; [assumption || reflexivity|]).
        intros zd' more' Hd. inversion Hd; subst zd' more'. assumption.
      * exists file. split; [reflexivity|].
        rewrite (length_head_block order hdr Hhdr) in *.
        cbn [firstn skipn app map list_sum fold_right]. lia.
  - destruct (Z_data_bound (pos :: vel :: ids :: mass :: gas)) as (zd & Hzd).
    rewrite Hzd in E. cbn [bind_result String.eqb Ascii.eqb Bool.eqb] in E.
    destruct (bind_w _ _ []) as [r f] eqn:Hb in E. inversion E; subst r f. clear E.
    apply bind_w_Ok_inv in Hb as (u0 & f0 & Hb0 & Hb).
    rewrite write_block_head in Hb0. inversion Hb0; subst f0. clear Hb0.
    cbn [app] in Hb.
    size_step Hb. size_step Hb. size_step Hb. size_step Hb.
    unfold ret_w in Hb. inversion Hb; subst file. clear Hb.
    split.
    + exists pos, vel, ids, mass, gas. repeat (split; [assumption || reflexivity|]).
      intros Hpos. apply Z.ltb_ge in Hgas. lia.
    + eexists. split; [reflexivity|].
      rewrite (length_head_block order hdr Hhdr) in *.
      cbn [firstn skipn app map list_sum fold_right]. lia.
Qed.

(** X14. A call of [write_snapshot] completes exactly when the counts are
    six integers that fit a C [int], the format is gadget2 and the data
    list is well formed: it holds the four arrays of every snapshot and,
    for a positive gas count, the three gas arrays (and the metallicity
    array, if there is an eighth entry), each with items that pack and a
    size that fits the markers. *)
Theorem write_snapshot_completes_iff (order : byte_order) (n_part : list Z)
  (data_list : list block_data) (file_format : string) :
  fst (write_snapshot order n_part data_list file_format) = Ok tt <->
  length n_part = 6%nat /\ forallb in_int32 n_part = true /\
  file_format = "gadget2"%string /\
  well_formed_data order (nth 0 n_part 0) data_list.
Proof.
  split.
  - intros H.
    destruct (write_snapshot_Ok_inv order n_part data_list file_format H)
      as (Hlen & Hr & Hfmt & Hwf & _).
    repeat split; assumption.
  - intros (Hlen & Hr & -> & Hwf).
    now apply write_snapshot_completes.
Qed.

(** X15. The file of a completed call holds the HEAD block of 280 bytes
    and, for each array written, a block of 24 bytes and 4 bytes for each
    element; nothing else. *)
Theorem write_snapshot_file_size (order : byte_order) (n_part : list Z)
  (data_list : list block_data) (file_format : string) :
  fst (write_snapshot order n_part data_list file_format) = Ok tt ->
  exists file,
    snd (write_snapshot order n_part data_list file_format) = Some file /\
    length file = snapshot_size (nth 0 n_part 0) data_list.
Proof.
  intros H.
  destruct (write_snapshot_Ok_inv order n_part data_list file_format H)
    as (_ & _ & _ & _ & Hfile).
  exact Hfile.
Qed.

Lemma write_snapshot_file_size_witness :
  fst (write_snapshot LittleEndian [1; 0; 0; 0; 0; 0] sample_data_list "gadget2") = Ok tt /\
  exists file,
    snd (write_snapshot LittleEndian [1; 0; 0; 0; 0; 0] sample_data_list "gadget2")
    = Some file /\
    length file = snapshot_size (nth 0 [1; 0; 0; 0; 0; 0] 0) sample_data_list.
Proof.
  assert (H : fst (write_snapshot LittleEndian [1; 0; 0; 0; 0; 0] sample_data_list "gadget2")
              = Ok tt) by (vm_compute; reflexivity).
  split; [exact H|].
  exact (write_snapshot_file_size LittleEndian [1; 0; 0; 0; 0; 0] sample_data_list "gadget2" H).
Defined.

(** ** Entries of the data list that are never read *)

(** X16. Without gas (a gas count of 0 or less) only the first four
    entries of the data list are used: whatever follows them, arrays for
    U, RHO, HSML or Z included, changes neither the outcome nor the
    file. *)
Theorem write_snapshot_without_gas (order : byte_order) (n_part : list Z)
  (data_list : list block_data) (file_format : string) :
  nth 0 n_part 0 <= 0 ->
  write_snapshot order n_part data_list file_format
  = write_snapshot order n_part (firstn 4 data_list) file_format.
Proof.
  intros H. unfold write_snapshot.
  destruct n_part as [|N_gas rest]; [reflexivity|]. cbn [nth] in H.
  destruct data_list as [|pos [|vel [|ids [|mass gas]]]]; try reflexivity.
  cbn [firstn py_index nth_error bind_result].
  apply Z.ltb_ge in H. rewrite H.
  destruct (Z_data_bound (pos :: vel :: ids :: mass :: gas)) as (zd & ->).
  reflexivity.
Qed.

Lemma write_snapshot_without_gas_witness :
  nth 0 [0; 5; 0; 0; 0; 0] 0 <= 0 /\
  write_snapshot LittleEndian [0; 5; 0; 0; 0; 0] sample_data_list "gadget2"
  = write_snapshot LittleEndian [0; 5; 0; 0; 0; 0] (firstn 4 sample_data_list) "gadget2".
Proof.
  assert (H : nth 0 [0; 5; 0; 0; 0; 0] 0 <= 0) by (cbn [nth]; lia).
  split; [exact H|].
  exact (write_snapshot_without_gas LittleEndian [0; 5; 0; 0; 0; 0] sample_data_list
           "gadget2" H).
Defined.

(** X17. No call reads the data list beyond its eighth entry: what
    follows changes neither the outcome nor the file. *)
Theorem write_snapshot_first_eight (order : byte_order) (n_part : list Z)
  (data_list : list block_data) (file_format : string) :
  write_snapshot order n_part data_list file_format
  = write_snapshot order n_part (firstn 8 data_list) file_format.
Proof.
  destruct data_list as [|a0 [|a1 [|a2 [|a3 [|a4 [|a5 [|a6 [|a7 more]]]]]]]];
    reflexivity.
Qed.

(** ** [read_configuration_file] *)


(** ** Reading a snapshot back *)

(** X19. The particle identifiers survive a completed call: the ID block
    starts after the HEAD block of 280 bytes and the POS and VEL blocks,
    and the 32-bit integer at byte [20 + 4k] of it is the identifier
    number [k], whatever blocks follow. *)
Theorem write_snapshot_ids_read_back (order : byte_order) (n_part : list Z)
  (pos vel : block_data) (zs : list Z) (others : list block_data)
  (file_format : string) :
  fst (write_snapshot order n_part
         (pos :: vel :: DataArray (map PyInt zs) :: others) file_format) = Ok tt ->
  exists file,
    snd (write_snapshot order n_part
           (pos :: vel :: DataArray (map PyInt zs) :: others) file_format) = Some file /\
    forall k, (k < length zs)%nat ->
      int_at order file (280 + block_size pos + block_size vel + 20 + 4 * k) = nth k zs 0.
Proof.
  intros H.
  destruct (write_snapshot_outcome order n_part
              (pos :: vel :: DataArray (map PyInt zs) :: others) file_format)
    as [(e & E) | (r & file & E)]; rewrite E in H |- *; [discriminate H|].
  cbn [fst snd] in H |- *. subst r. exists file. split; [reflexivity|].
  unfold write_snapshot in E. cbv zeta in E.
  match type of E with
  | match ?s with Ok _ => _ | Raise _ => _ end = _ =>
      destruct s as [body|e] eqn:Hs; [|discriminate E]
  end.
  apply bind_result_Ok_inv in Hs as (N_gas & HN & Hs).
  cbn [py_index nth_error bind_result] in Hs.
  apply bind_result_Ok_inv in Hs as (mass & Hm & Hs).
  apply bind_result_Ok_inv in Hs as (gas & Hg & Hs).
  apply bind_result_Ok_inv in Hs as (zd & Hz & Hs).
  destruct (String.eqb file_format "gadget2"); [|discriminate Hs].
  apply bind_result_Ok_inv in Hs as (hdr & Hh & Hs).
  inversion Hs; subst body; clear Hs.
  apply read_header_Ok_inv in Hh as (Hlen & _ & Ehdr).
  assert (Hhdr : length hdr = 256%nat)
    by (rewrite Ehdr, length_header_layout, Hlen; reflexivity).
  clear Ehdr.
  match type of E with
  | (let (_, _) := ?c in _) = _ => destruct c as [r f] eqn:Hb
  end.
  inversion E; subst r f. clear E.
  apply bind_w_Ok_inv in Hb as (u0 & f0 & Hb0 & Hb).
  rewrite write_block_head in Hb0. inversion Hb0; subst f0. clear Hb0.
  cbn [app] in Hb.
  size_step Hb. size_step Hb.
  apply bind_w_Ok_inv in Hb as (u3 & f3 & Hid & Hb).
  apply write_block_Ok_inv in Hid as (nbytes & payload & _ & Hp & Hname & _ & _ & ->).
  apply block_payload_ints in Hp as [-> Hr]; [|reflexivity].
  match type of Hb with
  | bind_w ?m ?k ?f = _ =>
      assert (Hk : appends (bind_w m k)) by solve_appends;
      destruct (Hk f) as (a & Ha)
  end.
  rewrite Hb in Ha. cbn [snd] in Ha. subst file.
  intros k Hlt. apply int_at_field; [|now apply forallb_nth_int32].
  rewrite (length_head_block order hdr Hhdr) in *.
  match goal with
  | |- slice _ 4 ((?g ++ _) ++ _) = _ =>
      replace (280 + block_size pos + block_size vel + 20 + 4 * k)%nat
        with (length g + 20 + 4 * k)%nat by lia
  end.
  rewrite <- !app_assoc.
  now apply slice_block_item.
Qed.

Lemma write_snapshot_ids_read_back_witness :
  fst (write_snapshot LittleEndian [0; 2; 0; 0; 0; 0]
         (sample_floats :: sample_floats :: DataArray (map PyInt [7; 9]) :: [sample_floats])
         "gadget2") = Ok tt /\
  exists file,
    snd (write_snapshot LittleEndian [0; 2; 0; 0; 0; 0]
           (sample_floats :: sample_floats :: DataArray (map PyInt [7; 9]) :: [sample_floats])
           "gadget2") = Some file /\
    forall k, (k < length [7; 9])%nat ->
      int_at LittleEndian file
        (280 + block_size sample_floats + block_size sample_floats + 20 + 4 * k)
      = nth k [7; 9] 0.
Proof.
  assert (H : fst (write_snapshot LittleEndian [0; 2; 0; 0; 0; 0]
                     (sample_floats :: sample_floats :: DataArray (map PyInt [7; 9])
                        :: [sample_floats]) "gadget2") = Ok tt)
    by (vm_compute; reflexivity).
  split; [exact H|].
  exact (write_snapshot_ids_read_back LittleEndian [0; 2; 0; 0; 0; 0]
           sample_floats sample_floats [7; 9] [sample_floats] "gadget2" H).
Defined.

(** * The byte order of what is written *)

Lemma native_field_native_bytes (order : byte_order) (size : nat) (bits : Z) :
  native_field order size bits (native_bytes order size bits).
Proof.
  split; [apply length_native_bytes|].
  split; [intros k Hk; now apply nth_native_bytes|].
  apply native_value_native_bytes.
Qed.

(** The item number [k] of a payload of 4-byte items. *)
Lemma pack_each_slice (order : byte_order) (c : fmt_code) (args : list pyval)
  (payload : list byte) (k : nat) :
  code_size c = 4%nat ->
  pack_each order c args = Ok payload -> (k < length args)%nat ->
  exists bits : Z,
    field_bits c (nth k args (PyInt 0)) = Ok bits /\
    slice (4 * k) 4 payload = native_bytes order 4 bits.
Proof.
  intros Hc. assert (Hne : c <> Fmt_c) by (intros ->; discriminate Hc).
  revert payload k. induction args as [|v args IH]; intros payload k H Hk;
    [cbn [length] in Hk; lia|].
  cbn [pack_each] in H.
  apply bind_result_Ok_inv in H as (item & Hitem & H).
  apply bind_result_Ok_inv in H as (tl & Htl & H).
  inversion H; subst payload; clear H.
  apply (pack_item_native order c v item Hne) in Hitem as (bits & Hbits & ->).
  rewrite Hc. destruct k as [|k].
  - exists bits. split; [exact Hbits|].
    cbn [Nat.mul]. apply slice_here. apply length_native_bytes.
  - cbn [length] in Hk.
    destruct (IH tl k Htl ltac:(lia)) as (bits' & Hbits' & Hs).
    exists bits'. split; [exact Hbits'|].
    rewrite (slice_skip _ _ _ _ 4 (length_native_bytes order 4 bits)) by lia.
    replace (4 * S k - 4)%nat with (4 * k)%nat by lia. exact Hs.
Qed.

(** The numeric fields of the header, each at its offset. *)
Lemma header_layout_fields (order : byte_order) (n_part : list Z) :
  length n_part = 6%nat ->
  (forall off z, In (off, z) (header_int_fields n_part) ->
     (off + 4 <= 256)%nat /\
     slice off 4 (header_layout order n_part) = native_bytes order 4 z) /\
  (forall off x, In (off, x) header_double_fields ->
     (off + 8 <= 256)%nat /\
     slice off 8 (header_layout order n_part)
     = native_bytes order 8 (bits_of_binary64 x)).
Proof.
  intros Hlen.
  destruct (length_six_inv _ n_part Hlen) as (a & b & c & d & e & g & ->).
  rewrite header_layout_six. cbv zeta.
  split; intros off v Hin;
    cbn [header_int_fields header_double_fields combine map seq app In
         Nat.mul Nat.add] in Hin;
    repeat (destruct Hin as [Hin|Hin];
            [inversion Hin; subst off v; split; [lia | seek_field; reflexivity]|]);
    destruct Hin.
Qed.

Lemma slice_head_block (order : byte_order) (hdr tail : list byte) (off n : nat) :
  (off + n <= length hdr)%nat ->
  slice (20 + off) n (head_block order hdr ++ tail) = slice off n hdr.
Proof.
  intros H. unfold head_block. rewrite <- !app_assoc.
  rewrite (slice_skip _ _ _ _ 4 (length_native_bytes order 4 8)) by lia.
  rewrite (slice_skip _ _ _ _ 4 (eq_refl : length (name_bytes "HEAD") = 4%nat)) by lia.
  rewrite (slice_skip _ _ _ _ 4 (length_native_bytes order 4 _)) by lia.
  rewrite (slice_skip _ _ _ _ 4 (length_native_bytes order 4 8)) by lia.
  rewrite (slice_skip _ _ _ _ 4 (length_native_bytes order 4 _)) by lia.
  replace (20 + off - 4 - 4 - 4 - 4 - 4)%nat with off by lia.
  now apply slice_inside.
Qed.

Lemma slice_last (x y : list byte) (n : nat) :
  length y = n -> slice (length (x ++ y) - n) n (x ++ y) = y.
Proof.
  intros H. rewrite length_app, H, Nat.add_sub.
  rewrite (slice_skip x y _ _ (length x) eq_refl) by lia.
  rewrite Nat.sub_diag. rewrite <- (app_nil_r y) at 1. now apply slice_here.
Qed.

(** The markers of a completed block, and its items when they are
    4-byte numbers. *)
Lemma write_block_fields (order : byte_order) (data : block_data)
  (data_type : option fmt_code) (block_name : string) (f f' : list byte) (u : unit) :
  write_block order data data_type block_name f = (Ok u, f') ->
  exists nbytes : Z,
    block_nbytes data data_type block_name = Ok nbytes /\
    slice (length f) 4 f' = native_bytes order 4 8 /\
    slice (length f + 8) 4 f' = native_bytes order 4 (nbytes + 8) /\
    slice (length f + 12) 4 f' = native_bytes order 4 8 /\
    slice (length f + 16) 4 f' = native_bytes order 4 nbytes /\
    slice (length f' - 4) 4 f' = native_bytes order 4 nbytes /\
    (forall (c : fmt_code) (args : list pyval),
       data_type = Some c -> code_size c = 4%nat ->
       block_name <> "HEAD"%string -> unpack_args data = Ok args ->
       forall k, (k < length args)%nat ->
         exists bits : Z,
           field_bits c (nth k args (PyInt 0)) = Ok bits /\
           slice (length f + 20 + 4 * k) 4 f' = native_bytes order 4 bits).
Proof.
  intros H.
  apply write_block_Ok_inv in H as (nbytes & payload & Hn & Hp & Hname & _ & _ & ->).
  exists nbytes. split; [exact Hn|].
  split.
  { rewrite (slice_skip f _ _ _ (length f) eq_refl) by lia.
    rewrite Nat.sub_diag. apply slice_here. apply length_native_bytes. }
  split.
  { rewrite (slice_skip f _ _ _ (length f) eq_refl) by lia.
    rewrite (slice_skip _ _ _ _ 4 (length_native_bytes order 4 8)) by lia.
    rewrite (slice_skip _ _ _ _ 4 Hname) by lia.
    replace (length f + 8 - length f - 4 - 4)%nat with 0%nat by lia.
    apply slice_here. apply length_native_bytes. }
  split.
  { rewrite (slice_skip f _ _ _ (length f) eq_refl) by lia.
    rewrite (slice_skip _ _ _ _ 4 (length_native_bytes order 4 8)) by lia.
    rewrite (slice_skip _ _ _ _ 4 Hname) by lia.
    rewrite (slice_skip _ _ _ _ 4 (length_native_bytes order 4 _)) by lia.
    replace (length f + 12 - length f - 4 - 4 - 4)%nat with 0%nat by lia.
    apply slice_here. apply length_native_bytes. }
  split.
  { rewrite (slice_skip f _ _ _ (length f) eq_refl) by lia.
    rewrite (slice_skip _ _ _ _ 4 (length_native_bytes order 4 8)) by lia.
    rewrite (slice_skip _ _ _ _ 4 Hname) by lia.
    rewrite (slice_skip _ _ _ _ 4 (length_native_bytes order 4 _)) by lia.
    rewrite (slice_skip _ _ _ _ 4 (length_native_bytes order 4 8)) by lia.
    replace (length f + 16 - length f - 4 - 4 - 4 - 4)%nat with 0%nat by lia.
    apply slice_here. apply length_native_bytes. }
  split.
  { rewrite !app_assoc. apply slice_last. apply length_native_bytes. }
  intros c args -> Hc Hne Hargs k Hk. apply String.eqb_neq in Hne.
  unfold block_payload in Hp. rewrite Hne in Hp.
  destruct (len data) as [n|] eqn:Hlen; [|discriminate Hp].
  cbn [bind_result] in Hp. rewrite Hargs in Hp. cbn [bind_result] in Hp.
  rewrite struct_pack_repeat in Hp.
  destruct (Nat.eqb n (length args)); [|discriminate Hp].
  pose proof (pack_each_length order c args payload Hp) as Hpl. rewrite Hc in Hpl.
  destruct (pack_each_slice order c args payload k Hc Hp Hk) as (bits & Hbits & Hs).
  exists bits. split; [exact Hbits|].
  rewrite (slice_skip f _ _ _ (length f) eq_refl) by lia.
  rewrite (slice_skip _ _ _ _ 4 (length_native_bytes order 4 8)) by lia.
  rewrite (slice_skip _ _ _ _ 4 Hname) by lia.
  rewrite (slice_skip _ _ _ _ 4 (length_native_bytes order 4 _)) by lia.
  rewrite (slice_skip _ _ _ _ 4 (length_native_bytes order 4 8)) by lia.
  rewrite (slice_skip _ _ _ _ 4 (length_native_bytes order 4 _)) by lia.
  replace (length f + 20 + 4 * k - length f - 4 - 4 - 4 - 4 - 4)%nat
    with (4 * k)%nat by lia.
  rewrite slice_inside by lia. exact Hs.
Qed.

(** C5, as amended. Every multi-byte numeric field the layer writes is in
    the byte order of the host [order], whatever the input: the byte of
    significance [k] of a field of [size] bytes is at position [k] on a
    little-endian host and at position [size - 1 - k] on a big-endian one,
    and a reader of that order gets the value back. This holds of
    - every 4-byte marker a completed [write_dummy] has written;
    - the 32-bit integers and the doubles of the header that [read_header]
      returns;
    - the five size markers of every block a completed [write_block] has
      written, and every element of a block of 4-byte floats or ints;
    - the integers and doubles of the header in any file that
      [write_snapshot] leaves, which writes through [write_block] alone.
    So the fields are little-endian exactly on a little-endian host. *)
Theorem written_fields_byte_order (order : byte_order) :
  (forall (vals : list Z) (f f' : list byte) (u : unit),
     write_dummy order vals f = (Ok u, f') ->
     forall k, (k < length vals)%nat ->
       native_field order 4 (nth k vals 0) (slice (length f + 4 * k) 4 f')) /\
  (forall (n_part : list Z) (hdr : list byte),
     read_header order n_part = Ok hdr ->
     (forall off z, In (off, z) (header_int_fields n_part) ->
        native_field order 4 z (slice off 4 hdr)) /\
     (forall off x, In (off, x) header_double_fields ->
        native_field order 8 (bits_of_binary64 x) (slice off 8 hdr))) /\
  (forall (data : block_data) (data_type : option fmt_code) (block_name : string)
          (f f' : list byte) (u : unit),
     write_block order data data_type block_name f = (Ok u, f') ->
     exists nbytes : Z,
       block_nbytes data data_type block_name = Ok nbytes /\
       native_field order 4 8 (slice (length f) 4 f') /\
       native_field order 4 (nbytes + 8) (slice (length f + 8) 4 f') /\
       native_field order 4 8 (slice (length f + 12) 4 f') /\
       native_field order 4 nbytes (slice (length f + 16) 4 f') /\
       native_field order 4 nbytes (slice (length f' - 4) 4 f') /\
       (forall (c : fmt_code) (args : list pyval),
          data_type = Some c -> code_size c = 4%nat ->
          block_name <> "HEAD"%string -> unpack_args data = Ok args ->
          forall k, (k < length args)%nat ->
            exists bits : Z,
              field_bits c (nth k args (PyInt 0)) = Ok bits /\
              native_field order 4 bits (slice (length f + 20 + 4 * k) 4 f'))) /\
  (forall (n_part : list Z) (data_list : list block_data) (file_format : string)
          (file : list byte),
     snd (write_snapshot order n_part data_list file_format) = Some file ->
     native_field order 4 8 (slice 0 4 file) /\
     native_field order 4 264 (slice 8 4 file) /\
     native_field order 4 8 (slice 12 4 file) /\
     native_field order 4 256 (slice 16 4 file) /\
     native_field order 4 256 (slice 276 4 file) /\
     (forall off z, In (off, z) (header_int_fields n_part) ->
        native_field order 4 z (slice (20 + off) 4 file)) /\
     (forall off x, In (off, x) header_double_fields ->
        native_field order 8 (bits_of_binary64 x) (slice (20 + off) 8 file))).
Proof.
  split; [|split; [|split]].
  - intros vals f f' u H k Hk. apply write_dummy_Ok_inv in H as [_ ->].
    rewrite (slice_skip f _ _ _ (length f) eq_refl) by lia.
    replace (length f + 4 * k - length f)%nat with (4 * k)%nat by lia.
    rewrite (slice_flat_map_int order vals k Hk).
    apply native_field_native_bytes.
  - intros n_part hdr H. apply read_header_Ok_inv in H as (Hlen & _ & ->).
    destruct (header_layout_fields order n_part Hlen) as [Hi Hd]. split.
    + intros off z Hin. destruct (Hi off z Hin) as [_ ->].
      apply native_field_native_bytes.
    + intros off x Hin. destruct (Hd off x Hin) as [_ ->].
      apply native_field_native_bytes.
  - intros data data_type block_name f f' u H.
    destruct (write_block_fields order data data_type block_name f f' u H)
      as (nbytes & Hn & H1 & H2 & H3 & H4 & H5 & Hitems).
    exists nbytes. split; [exact Hn|].
    rewrite H1, H2, H3, H4, H5.
    repeat (split; [apply native_field_native_bytes|]).
    intros c args Hdt Hc Hne Hargs k Hk.
    destruct (Hitems c args Hdt Hc Hne Hargs k Hk) as (bits & Hbits & ->).
    exists bits. split; [exact Hbits | apply native_field_native_bytes].
  - intros n_part data_list file_format file H.
    apply write_snapshot_opened_inv in H as (Hlen & _ & _ & _ & _ & tail & ->).
    assert (Hhdr : length (header_layout order n_part) = 256%nat)
      by (rewrite length_header_layout, Hlen; reflexivity).
    destruct (header_layout_fields order n_part Hlen) as [Hi Hd].
    assert (Hb : write_block order (DataBytes (header_layout order n_part)) None "HEAD" []
                 = (Ok tt, [] ++ head_block order (header_layout order n_part)))
      by apply write_block_head.
    destruct (write_block_fields order _ None "HEAD" [] _ tt Hb)
      as (nbytes & Hn & H1 & H2 & H3 & H4 & H5 & _).
    inversion Hn; subst nbytes. cbn [app length Nat.add] in H1, H2, H3, H4, H5.
    rewrite (length_head_block order _ Hhdr) in H5. cbn [Nat.sub] in H5.
    assert (Hlb : length (head_block order (header_layout order n_part)) = 280%nat)
      by exact (length_head_block order _ Hhdr).
    rewrite !slice_inside by (rewrite Hlb; lia).
    rewrite H1, H2, H3, H4, H5.
    repeat (split; [apply native_field_native_bytes|]).
    split.
    + intros off z Hin. destruct (Hi off z Hin) as [Hle Hs].
      rewrite slice_head_block by (rewrite Hhdr; exact Hle). rewrite Hs.
      apply native_field_native_bytes.
    + intros off x Hin. destruct (Hd off x Hin) as [Hle Hs].
      rewrite slice_head_block by (rewrite Hhdr; exact Hle). rewrite Hs.
      apply native_field_native_bytes.
Qed.

Lemma written_fields_byte_order_witness :
  write_dummy BigEndian [264] [] = (Ok tt, [x00; x00; x01; x08]) /\
  native_field BigEndian 4 264 [x00; x00; x01; x08] /\
  write_dummy LittleEndian [264] [] = (Ok tt, [x08; x01; x00; x00]) /\
  native_field LittleEndian 4 264 [x08; x01; x00; x00] /\
  le_value [x08; x01; x00; x00] = 264 /\
  read_header LittleEndian [100; 50; 0; 0; 0; 0]
  = Ok (header_layout LittleEndian [100; 50; 0; 0; 0; 0]) /\
  native_field LittleEndian 8 (bits_of_binary64 float_one)
    (slice 152 8 (header_layout LittleEndian [100; 50; 0; 0; 0; 0])) /\
  write_block BigEndian sample_gas (Some Fmt_f) "MASS" []
  = (Ok tt, sample_gas_block_big_endian) /\
  native_field BigEndian 4 1065353216 (slice 20 4 sample_gas_block_big_endian).
Proof.
  assert (Hb : native_field BigEndian 4 264 [x00; x00; x01; x08])
    by exact (proj1 (written_fields_byte_order BigEndian) [264] [] [x00; x00; x01; x08] tt
                eq_refl 0%nat ltac:(cbn; lia)).
  assert (Hl : native_field LittleEndian 4 264 [x08; x01; x00; x00])
    by exact (proj1 (written_fields_byte_order LittleEndian) [264] [] [x08; x01; x00; x00] tt
                eq_refl 0%nat ltac:(cbn; lia)).
  assert (Hh : read_header LittleEndian [100; 50; 0; 0; 0; 0]
               = Ok (header_layout LittleEndian [100; 50; 0; 0; 0; 0]))
    by (vm_compute; reflexivity).
  assert (Hw : write_block BigEndian sample_gas (Some Fmt_f) "MASS" []
               = (Ok tt, sample_gas_block_big_endian))
    by (vm_compute; reflexivity).
  split; [reflexivity|]. split; [exact Hb|]. split; [reflexivity|]. split; [exact Hl|].
  split; [exact (proj2 (proj2 Hl))|]. split; [exact Hh|]. split.
  - apply (proj2 (proj1 (proj2 (written_fields_byte_order LittleEndian)) _ _ Hh)).
    cbn. repeat (first [left; reflexivity | right]).
  - split; [exact Hw|].
    destruct (proj1 (proj2 (proj2 (written_fields_byte_order BigEndian))) _ _ _ _ _ _ Hw)
      as (nbytes & _ & _ & _ & _ & _ & _ & Hitems).
    destruct (Hitems Fmt_f [PyFloat float_one] eq_refl eq_refl ltac:(discriminate) eq_refl
                0%nat ltac:(cbn; lia)) as (bits & Hbits & Hf).
    vm_compute in Hbits. inversion Hbits; subst bits. exact Hf.
Defined.
